(** * Row level permissions: the policy core of [fastapi_permissions]

    A shallow embedding of [src/fastapi_permissions/__init__.py]: the
    constants, [normalize_principals], [normalize_acl], [is_like_list],
    [has_permission], [list_permissions] and the dependency built by
    [permission_dependency_factory], followed by the properties the
    specification states about them.

    Python values are probed dynamically by the source ([getattr],
    [callable], [isinstance], [hasattr], truthiness), so users and
    resources are values of one small universe [value]; operations that
    can raise live in the error monad [result]. *)

From Stdlib Require Import ZArith.
From stdpp Require Import gmap strings list fin_maps.

Local Open Scope string_scope.

(** ** Exceptions and the error monad *)

Inductive exn : Type :=
| TypeError
| ValueError
| HTTPException (status_code : Z) (detail : string)
                (headers : list (string * string)).

Inductive result (A : Type) : Type :=
| Ok (a : A)
| Raise (e : exn).
Arguments Ok {A} a.
Arguments Raise {A} e.

Global Instance result_ret : MRet result := λ A a, Ok a.
Global Instance result_bind : MBind result := λ A B k r,
  match r with
  | Ok a => k a
  | Raise e => Raise e
  end.

Global Instance result_fmap : FMap result := λ A B f r,
  match r with
  | Ok a => Ok (f a)
  | Raise e => Raise e
  end.

(** ** Constants *)

Definition Allow : string := "Allow".
Definition Deny : string := "Deny".

Definition Everyone : string := "system:everyone".
Definition Authenticated : string := "system:authenticated".

Definition HTTP_403_FORBIDDEN : Z := 403.

(** ** Permissions

    A value that is asked for, or that a permission collection holds: a
    name ([str]) or the instance [All] of [_AllPermissions]. *)

Inductive permission : Type :=
| Name (s : string)
| AllObj.

(** The third component of an ACL entry: a single [str], a collection of
    names (a set or a list), or [All]. *)

Inductive permissions : Type :=
| PStr (s : string)
| PSet (names : list string)
| PAll.

Definition All : permissions := PAll.

Definition principal : Type := string.

(** An ACL entry is the tuple [(action, principal, permissions)]. *)
Definition entry : Type := string * principal * permissions.

Definition DENY_ALL : entry := (Deny, Everyone, All).
Definition ALOW_ALL : entry := (Allow, Everyone, All).

(** ** Python values

    [value A] is a Python value whose non-string sequences hold items of
    type [A]: principals for what a user exposes, ACL entries for what a
    resource exposes.  [VList] stands for any such sequence, [VInt] for
    the scalars.  [VFun ret] is a zero-argument callable, given by the
    value a call returns.  [VObj attrs] is an instance of a class that
    defines no special methods, given by the attributes [getattr] and
    [hasattr] find on it: it is true, not callable, and [for] does not
    iterate it. *)

#[warnings="-register-all"]
Inductive value (A : Type) : Type :=
| VNone
| VInt (n : Z)
| VStr (s : string)
| VList (items : list A)
| VFun (ret : value A)
| VObj (attrs : gmap string (value A)).
Arguments VNone {A}.
Arguments VInt {A} n.
Arguments VStr {A} s.
Arguments VList {A} items.
Arguments VFun {A} ret.
Arguments VObj {A} attrs.

(** *** The built-in operations the source applies to such values *)

(** [getattr(v, name, default)]: only instances carry the attributes the
    source asks for ([principals], [__acl__]). *)
Definition getattr {A} (v : value A) (name : string) (default : value A)
  : value A :=
  match v with
  | VObj attrs => match attrs !! name with Some a => a | None => default end
  | _ => default
  end.

Definition callable {A} (v : value A) : bool :=
  match v with VFun _ => true | _ => false end.

(** [v()] *)
Definition call {A} (v : value A) : result (value A) :=
  match v with
  | VFun ret => Ok ret
  | _ => Raise TypeError
  end.

Definition is_None {A} (v : value A) : bool :=
  match v with VNone => true | _ => false end.

(** Truth value testing, as [not v] uses it. *)
Definition truthy {A} (v : value A) : bool :=
  match v with
  | VNone => false
  | VInt n => negb (n =? 0)%Z
  | VStr s => negb (String.eqb s "")
  | VList items => match items with [] => false | _ => true end
  | VFun _ | VObj _ => true
  end.

(** The characters of a [str], each a [str] of length one. *)
Fixpoint chars (s : string) : list string :=
  match s with
  | EmptyString => []
  | String c s' => String c EmptyString :: chars s'
  end.

(** Iteration: a sequence yields its items, a [str] its characters; every
    other value raises [TypeError]. *)
Definition iter {A} (v : value A) : result (list (A + string)) :=
  match v with
  | VList items => Ok (inl <$> items)
  | VStr s => Ok (inr <$> chars s)
  | _ => Raise TypeError
  end.

(** What [isinstance(_, str)] and [hasattr(_, "__iter__")] answer, for
    the two kinds of object [is_like_list] is applied to. *)
Class PyObject (T : Type) : Type := {
  isinstance_str : T → bool;
  hasattr_iter : T → bool
}.

Global Instance value_object {A} : PyObject (value A) := {|
  isinstance_str v := match v with VStr _ => true | _ => false end;
  hasattr_iter v :=
    match v with
    | VStr _ | VList _ => true
    | VObj attrs => bool_decide (is_Some (attrs !! "__iter__"))
    | _ => false
    end
|}.

(** [_AllPermissions] defines [__contains__] and [__str__] only. *)
Global Instance permissions_object : PyObject permissions := {|
  isinstance_str p := match p with PStr _ => true | _ => false end;
  hasattr_iter p := match p with PStr _ | PSet _ => true | PAll => false end
|}.

(** The class of [All]: two special methods, nothing else. *)
Module _AllPermissions.

Definition __contains__ (other : permission) : bool := true.

Definition __str__ : string := "permissions:*".

End _AllPermissions.

(** [t in s] for two [str]: [t] occurs in [s]. *)
Fixpoint is_substring (t s : string) : bool :=
  String.prefix t s ||
  match s with
  | EmptyString => false
  | String _ s' => is_substring t s'
  end.

(** [x in c].  A collection holds names only, so it does not hold [All];
    a [str] on the right asks for a [str] on the left. *)
Definition contains (x : permission) (c : permissions) : result bool :=
  match c with
  | PAll => Ok (_AllPermissions.__contains__ x)
  | PSet names =>
      match x with
      | Name t => Ok (bool_decide (t ∈ names))
      | AllObj => Ok false
      end
  | PStr s =>
      match x with
      | Name t => Ok (is_substring t s)
      | AllObj => Raise TypeError
      end
  end.

(** [str(p)] *)
Definition str (p : permission) : string :=
  match p with
  | Name s => s
  | AllObj => _AllPermissions.__str__
  end.

(** [{p}]: the members of the one-element set; a [set] is not hashable. *)
Definition singleton_set (p : permissions) : result (list permission) :=
  match p with
  | PStr s => Ok [Name s]
  | PAll => Ok [AllObj]
  | PSet _ => Raise TypeError
  end.

(** What iterating a permissions field yields: the names of a collection,
    the characters of a [str]; [All] is not iterable. *)
Definition members (p : permissions) : result (list permission) :=
  match p with
  | PSet names => Ok (Name <$> names)
  | PStr s => Ok (Name <$> chars s)
  | PAll => Raise TypeError
  end.

(** Unpacking an item into [action, principal, permissions]: a character
    of a [str] has one value where three are expected. *)
Definition unpack (item : entry + string) : result entry :=
  match item with
  | inl e => Ok e
  | inr _ => Raise ValueError
  end.

Global Instance permission_eq_dec : EqDecision permission.
Proof. solve_decision. Defined.

Global Instance permission_countable : Countable permission :=
  inj_countable'
    (λ p, match p with Name s => Some s | AllObj => None end)
    (λ o, match o with Some s => Name s | None => AllObj end)
    (λ p, match p with Name _ => eq_refl | AllObj => eq_refl end).

(** ** Utility functions *)

Definition is_like_list {T} `{PyObject T} (something : T) : bool :=
  if isinstance_str something then false
  else hasattr_iter something.

(** What [set.union] adds for an item of the iterable: the principal, or
    the character when the iterable is a [str]. *)
Definition hashed (item : principal + string) : principal :=
  match item with
  | inl p => p
  | inr c => c
  end.

Definition normalize_principals (user : value principal)
  : result (gset principal) :=
  let user_principals := getattr user "principals" (VList []) in
  user_principals ←
    (if callable user_principals then call user_principals
     else Ok user_principals);
  if negb (truthy user_principals) then Ok {[Everyone]}
  else
    items ← iter user_principals;
    Ok ({[Everyone; Authenticated]} ∪ list_to_set (hashed <$> items)).

Definition normalize_acl (resource : value entry) : result (value entry) :=
  let acl := getattr resource "__acl__" VNone in
  if callable acl then call acl
  else if negb (is_None acl) then Ok acl
  else if is_like_list resource then Ok resource
  else Ok (VList []).

(** ** The decision *)

(** The loop of [has_permission] over the items the ACL yields. *)
Fixpoint has_permission_loop (user_principals : gset principal)
    (requested_permission : permission) (items : list (entry + string))
  : result bool :=
  match items with
  | [] => Ok false
  | item :: rest =>
      '(action, principal, permissions) ← unpack item;
      let permissions :=
        match permissions with
        | PStr s => PSet [s]
        | _ => permissions
        end in
      found ← contains requested_permission permissions;
      if found : bool then
        if bool_decide (principal ∈ user_principals)
        then Ok (String.eqb action Allow)
        else has_permission_loop user_principals requested_permission rest
      else has_permission_loop user_principals requested_permission rest
  end.

Definition has_permission (user : value principal)
    (requested_permission : permission) (resource : value entry)
  : result bool :=
  user_principals ← normalize_principals user;
  acl ← normalize_acl resource;
  items ← iter acl;
  has_permission_loop user_principals requested_permission items.

(** ** Listing

    [{key(p): val(p) for p in order}]: a later member overwrites an
    earlier one with the same key. *)
Fixpoint dict_comprehension {K V} `{Countable K}
    (key : permission → K) (val : permission → result V)
    (order : list permission) (d : gmap K V) : result (gmap K V) :=
  match order with
  | [] => Ok d
  | p :: rest =>
      v ← val p;
      dict_comprehension key val rest (<[key p := v]> d)
  end.

Section SetIteration.

(** The order in which a built-in [set] yields its members is not
    specified; [set_iter] is the order the interpreter at hand uses. *)
Variable set_iter : gset permission → list permission.

Definition list_permissions (user : value principal)
    (resource : value entry) : result (gmap string bool) :=
  acl ← normalize_acl resource;
  items ← iter acl;
  acl_permissions ←
    mapM (λ item, '(_, _, permissions) ← unpack item; Ok permissions) items;
  as_iterables ←
    mapM (λ p, if negb (is_like_list p) then singleton_set p
               else members p) acl_permissions;
  let available_permissions : gset permission :=
    list_to_set (mjoin as_iterables) in
  dict_comprehension str (λ p, has_permission user p acl)
    (set_iter available_permissions) ∅.

End SetIteration.

(** ** The dependency *)

Definition permission_exception : exn :=
  HTTPException HTTP_403_FORBIDDEN "Insufficient permissions"
    [("WWW-Authenticate", "Bearer")].

Record Grant : Type := { user : value principal; resource : value entry }.

(** [permission_dependency], the function [permission_dependency_factory]
    returns; the framework calls it with the resource and the user its
    resolvers produced. *)
Definition permission_dependency_factory {G : Type} (permission : string)
    (grant_class : value principal → value entry → G)
    (permission_exception : exn)
  : value entry → value principal → result G :=
  λ resource user,
    granted ← has_permission user (Name permission) resource;
    if granted : bool then Ok (grant_class user resource)
    else Raise permission_exception.

Definition configure_permissions {G : Type}
    (grant_class : value principal → value entry → G)
    (permission_exception : exn)
  : string → value entry → value principal → result G :=
  λ permission,
    permission_dependency_factory permission grant_class permission_exception.

(** ** What the specification calls things *)

(** The permissions field [perms] contains the requested permission [p]:
    it is that name, a collection holding that name, or [All]. *)
Definition covers (perms : permissions) (p : permission) : Prop :=
  match perms, p with
  | PAll, _ => True
  | PSet names, Name t => t ∈ names
  | PStr s, Name t => t = s
  | _, AllObj => False
  end.

Global Instance covers_dec perms p : Decision (covers perms p).
Proof. destruct perms, p; simpl; apply _. Defined.

(** An entry matches: its permissions contain the requested permission
    and its principal is one the user holds. *)
Definition matches (held : gset principal) (p : permission) (e : entry)
  : Prop :=
  covers e.2 p ∧ e.1.2 ∈ held.

Global Instance matches_dec held p e : Decision (matches held p e).
Proof. unfold matches. apply _. Defined.

(** The ACL accessor a resource exposes, if any. *)
Definition accessor (resource : value entry) : option (value entry) :=
  match resource with
  | VObj attrs => attrs !! "__acl__"
  | _ => None
  end.

(** The principals attribute a user exposes, if any. *)
Definition principals_attribute (user : value principal)
  : option (value principal) :=
  match user with
  | VObj attrs => attrs !! "principals"
  | _ => None
  end.

(** The collection [normalize_principals] looks at: the attribute, called
    once when it is callable, [[]] when there is none. *)
Definition principals_collection (user : value principal)
  : value principal :=
  match principals_attribute user with
  | Some (VFun ret) => ret
  | Some v => v
  | None => VList []
  end.

(** What a permissions field contributes to a listing: the name, the
    names of the collection, or the sentinel [All] itself. *)
Definition contribution (perms : permissions) : list permission :=
  match perms with
  | PStr s => [Name s]
  | PSet names => Name <$> names
  | PAll => [AllObj]
  end.

(** The permissions the entries of an ACL mention, in the order of the
    entries. *)
Definition mentioned (acl : list entry) : list permission :=
  mjoin ((λ e : entry, contribution e.2) <$> acl).

(** What [has_permission] decides for principals [held] on the ACL. *)
Definition decision (held : gset principal) (p : permission)
    (acl : list entry) : bool :=
  match list_find (matches held p) acl with
  | Some (_, (a, _, _)) => String.eqb a Allow
  | None => false
  end.

(** ** Sample users and resources *)

(** An object without [principals] attribute. *)
Definition anonymous : value principal := VObj ∅.

Definition admin_user : value principal :=
  VObj {["principals" := VList ["role:admin"]]}.

(** [principals] is a method here. *)
Definition editor_user : value principal :=
  VObj {["principals" := VFun (VList ["role:editor"; "role:editor"])]}.

Definition admin_held : gset principal :=
  {[Everyone; Authenticated; "role:admin"]}.

Definition guarded_acl : list entry :=
  [(Deny, Everyone, PStr "view"); (Allow, "role:admin", PStr "view")].

Definition article_acl : list entry :=
  [(Allow, "role:editor", PSet ["view"; "edit"]); (Deny, Everyone, PStr "edit")].

(** A resource whose [__acl__] is a method. *)
Definition article : value entry :=
  VObj {["__acl__" := VFun (VList article_acl); "title" := VStr "draft"]}.

(** A resource whose [__acl__] is a plain attribute. *)
Definition guarded_item : value entry :=
  VObj {["__acl__" := VList guarded_acl]}.

(** An ACL that names the textual form of [All] next to [All]. *)
Definition clash_acl : list entry :=
  [(Deny, Everyone, PStr "permissions:*"); ALOW_ALL].

(** A user whose [principals] is a number, and one whose [principals] is
    a bare [str]. *)
Definition numbered_user : value principal :=
  VObj {["principals" := VInt 5]}.

Definition bare_str_user : value principal :=
  VObj {["principals" := VStr "admin"]}.

(** A resource whose [__acl__] is a [str]. *)
Definition str_acl_item : value entry :=
  VObj {["__acl__" := VStr "abc"]}.

(** * Properties *)

(** ** The loop of [has_permission] *)

Lemma contains_coerced (p : permission) (perms : permissions) :
  contains p (match perms with PStr s => PSet [s] | _ => perms end)
  = Ok (bool_decide (covers perms p)).
Proof.
  destruct perms as [s|names|], p as [t|]; simpl; try reflexivity.
  f_equal. apply bool_decide_ext. rewrite list_elem_of_singleton. tauto.
Qed.

Lemma has_permission_loop_cons held p a pr perms rest :
  has_permission_loop held p (inl (a, pr, perms) :: rest) =
  if decide (matches held p (a, pr, perms))
  then Ok (String.eqb a Allow)
  else has_permission_loop held p rest.
Proof.
  cbn [has_permission_loop unpack mbind result_bind].
  rewrite contains_coerced. cbn [mbind result_bind].
  unfold matches; simpl.
  destruct (decide (covers perms p ∧ pr ∈ held)) as [[Hc Hp]|Hn].
  - rewrite bool_decide_eq_true_2 by done.
    rewrite bool_decide_eq_true_2 by done. reflexivity.
  - destruct (bool_decide_reflect (covers perms p)); [|reflexivity].
    rewrite bool_decide_eq_false_2; [reflexivity|tauto].
Qed.

Lemma has_permission_loop_find held p (acl : list entry) :
  has_permission_loop held p (inl <$> acl) =
  Ok (match list_find (matches held p) acl with
      | Some (_, (a, _, _)) => String.eqb a Allow
      | None => false
      end).
Proof.
  induction acl as [|[[a pr] perms] acl IH]; [reflexivity|].
  rewrite fmap_cons, has_permission_loop_cons. cbn [list_find].
  destruct (decide (matches held p (a, pr, perms))); [reflexivity|].
  rewrite IH. destruct (list_find _ acl) as [[i [[a' pr'] perms']]|]; reflexivity.
Qed.

Lemma has_permission_normalized user p resource held (acl : list entry) :
  normalize_principals user = Ok held →
  normalize_acl resource = Ok (VList acl) →
  has_permission user p resource = has_permission_loop held p (inl <$> acl).
Proof.
  intros Hu Hr. unfold has_permission. rewrite Hu, Hr. reflexivity.
Qed.

(** ** [normalize_principals] *)

Lemma normalize_principals_collection user :
  normalize_principals user =
  if truthy (principals_collection user)
  then items ← iter (principals_collection user);
       Ok ({[Everyone; Authenticated]} ∪ list_to_set (hashed <$> items))
  else Ok {[Everyone]}.
Proof.
  unfold normalize_principals, principals_collection, principals_attribute,
    getattr.
  destruct user as [| | | |ret|attrs]; try reflexivity.
  destruct (attrs !! "principals") as [[| n | s | items | ret | attrs']|];
    cbn [callable call mbind result_bind];
    try match goal with |- context [truthy ?v] => destruct (truthy v) end;
    reflexivity.
Qed.

Lemma normalize_principals_Everyone user held :
  normalize_principals user = Ok held → Everyone ∈ held.
Proof.
  rewrite normalize_principals_collection.
  destruct (truthy _).
  - destruct (iter _) as [items|e]; cbn [mbind result_bind]; [|discriminate].
    intros [= <-]. set_solver.
  - intros [= <-]. set_solver.
Qed.

(** ** [normalize_acl] *)

Lemma normalize_acl_list (acl : list entry) :
  normalize_acl (VList acl) = Ok (VList acl).
Proof. reflexivity. Qed.

Lemma getattr_accessor (resource : value entry) :
  getattr resource "__acl__" VNone =
  match accessor resource with Some acl => acl | None => VNone end.
Proof. destruct resource; reflexivity. Qed.

(** ** First match wins *)

(** C1. For every user, requested permission and resource,
    [has_permission] returns true iff the first ACL entry, in the
    original order, whose permissions contain the requested permission
    and whose principal is in the normalized principal set has action
    [Allow]; with no such entry it returns false; an entry whose
    permissions match but whose principal is not held is skipped and the
    evaluation continues with the rest. *)
Theorem has_permission_first_match
    (user : value principal) (p : permission) (resource : value entry)
    (held : gset principal) (acl : list entry) :
  normalize_principals user = Ok held →
  normalize_acl resource = Ok (VList acl) →
  ∃ granted : bool,
    has_permission user p resource = Ok granted ∧
    (granted = true ↔
       ∃ (i : nat) (e : entry),
         acl !! i = Some e ∧ matches held p e ∧ e.1.1 = Allow ∧
         ∀ (j : nat) (e' : entry),
           acl !! j = Some e' → j < i → ¬ matches held p e') ∧
    ((∀ e, e ∈ acl → ¬ matches held p e) → granted = false) ∧
    (∀ e rest, acl = e :: rest → covers e.2 p → e.1.2 ∉ held →
       has_permission user p (VList rest) = Ok granted).
Proof.
  intros Hu Hr.
  rewrite (has_permission_normalized _ _ _ _ _ Hu Hr), has_permission_loop_find.
  eexists; split; [reflexivity|]. split; [|split].
  - destruct (list_find _ acl) as [[i [[a pr] perms]]|] eqn:Hfind.
    + apply list_find_Some in Hfind as (Hi & Hm & Hfirst).
      rewrite String.eqb_eq. split.
      * intros ->. exists i, (Allow, pr, perms). eauto.
      * intros (i' & e' & Hi' & Hm' & Ha' & Hfirst').
        destruct (Nat.lt_total i i') as [Hlt|[->|Hlt]].
        -- destruct (Hfirst' _ _ Hi Hlt Hm).
        -- rewrite Hi in Hi'. injection Hi' as <-. exact Ha'.
        -- destruct (Hfirst _ _ Hi' Hlt Hm').
    + split; [discriminate|].
      intros (i & e & Hi & Hm & _).
      apply list_find_None in Hfind. rewrite Forall_forall in Hfind.
      destruct (Hfind e); [|done]. eapply list_elem_of_lookup_2, Hi.
  - intros Hnone. destruct (list_find _ acl) as [[i e]|] eqn:Hfind; [|done].
    apply list_find_Some in Hfind as (Hi & Hm & _).
    destruct (Hnone e); [|done]. eapply list_elem_of_lookup_2, Hi.
  - intros [[a pr] perms] rest -> Hc Hp.
    rewrite (has_permission_normalized _ _ _ _ _ Hu (normalize_acl_list rest)),
      has_permission_loop_find.
    cbn [list_find]. rewrite decide_False by (unfold matches; simpl in *; tauto).
    destruct (list_find _ rest) as [[i [[a' pr'] perms']]|]; reflexivity.
Qed.

(** C5. For every user, anonymous ones included, and every requested
    permission, [has_permission] against the ACL [[(Allow, Everyone, All)]]
    returns true: [All] reports containment of whatever is asked, and
    [Everyone] is held by every actor. *)
Theorem allow_all_grants_everything
    (user : value principal) (p : permission) (resource : value entry)
    (held : gset principal) :
  normalize_principals user = Ok held →
  normalize_acl resource = Ok (VList [ALOW_ALL]) →
  has_permission user p resource = Ok true ∧
  contains p All = Ok true ∧
  Everyone ∈ held.
Proof.
  intros Hu Hr. pose proof (normalize_principals_Everyone _ _ Hu) as He.
  split; [|split; [reflexivity|exact He]].
  rewrite (has_permission_normalized _ _ _ _ _ Hu Hr).
  unfold ALOW_ALL. rewrite fmap_cons, has_permission_loop_cons.
  rewrite decide_True; [reflexivity|]. split; [exact I|exact He].
Qed.

(** C9. An entry whose permissions field is a single [str] [s] matches a
    requested name [t] iff [t = s]: the [str] is made the singleton set
    before the containment test, so a substring of [s] (["vi"] against
    ["view"]), which [in] on the bare [str] would accept, never matches. *)
Theorem str_permissions_match_exactly
    (user : value principal) (held : gset principal)
    (a : string) (pr : principal) (s t : string) (rest : list entry) :
  normalize_principals user = Ok held →
  pr ∈ held →
  has_permission user (Name t) (VList ((a, pr, PStr s) :: rest)) =
    (if decide (t = s) then Ok (String.eqb a Allow)
     else has_permission user (Name t) (VList rest)) ∧
  (has_permission user (Name t) (VList [(Allow, pr, PStr s)]) = Ok true
   ↔ t = s) ∧
  has_permission user (Name "vi") (VList [(Allow, pr, PStr "view")])
    = Ok false ∧
  contains (Name "vi") (PStr "view") = Ok true.
Proof.
  intros Hu Hp.
  assert (Hcons : ∀ t' s' a' rest',
    has_permission user (Name t') (VList ((a', pr, PStr s') :: rest')) =
    if decide (t' = s') then Ok (String.eqb a' Allow)
    else has_permission user (Name t') (VList rest')).
  { intros t' s' a' rest'.
    rewrite !(has_permission_normalized _ _ _ _ _ Hu (normalize_acl_list _)).
    rewrite fmap_cons, has_permission_loop_cons. unfold matches; simpl.
    destruct (decide (t' = s')) as [->|Hne].
    - rewrite decide_True by done. reflexivity.
    - rewrite decide_False by tauto. reflexivity. }
  split; [apply Hcons|]. split; [|split; [|reflexivity]].
  - rewrite Hcons. destruct (decide (t = s)) as [->|Hne].
    + split; [done|reflexivity].
    + rewrite (has_permission_normalized _ _ _ _ _ Hu (normalize_acl_list _)).
      simpl. split; [discriminate|done].
  - rewrite Hcons, decide_False by discriminate.
    rewrite (has_permission_normalized _ _ _ _ _ Hu (normalize_acl_list _)).
    reflexivity.
Qed.

(** ** The ACL of a resource *)

(** C3. [normalize_acl] resolves in a fixed priority order: a resource
    whose [__acl__] attribute is not [None] yields the result of calling
    it when it is callable and the attribute itself otherwise; else a
    resource that is iterable and not a [str] is itself the ACL; else the
    ACL is the empty list.  It never raises. *)
Theorem normalize_acl_priority (resource : value entry) :
  (∀ ret, accessor resource = Some (VFun ret) →
     normalize_acl resource = Ok ret) ∧
  (∀ acl, accessor resource = Some acl → acl ≠ VNone → callable acl = false →
     normalize_acl resource = Ok acl) ∧
  (accessor resource = None ∨ accessor resource = Some VNone →
     (hasattr_iter resource = true → isinstance_str resource = false →
        normalize_acl resource = Ok resource) ∧
     (hasattr_iter resource = false ∨ isinstance_str resource = true →
        normalize_acl resource = Ok (VList []))) ∧
  (∃ acl, normalize_acl resource = Ok acl).
Proof.
  unfold normalize_acl. rewrite getattr_accessor. unfold is_like_list.
  split; [|split; [|split]].
  - intros ret ->. reflexivity.
  - intros acl -> Hnone Hcall. rewrite Hcall.
    destruct acl; try reflexivity; done.
  - intros Hacc.
    assert (Hnone : match accessor resource with
                    | Some acl => acl | None => VNone end = VNone)
      by (destruct Hacc as [-> | ->]; reflexivity).
    rewrite Hnone. cbn [callable is_None negb]. split.
    + intros -> ->. reflexivity.
    + intros [Hit|Hstr].
      * rewrite Hit. destruct (isinstance_str resource); reflexivity.
      * rewrite Hstr. reflexivity.
  - destruct (accessor resource) as [[| n | s | items | ret | attrs]|];
      cbn [callable call is_None negb]; eauto.
    all: destruct (isinstance_str resource), (hasattr_iter resource); eauto.
Qed.

(** C10. [normalize_acl] is idempotent on plain sequences: when the ACL
    of a resource is a non-[str] iterable without [__acl__] attribute,
    normalizing it again returns it unchanged; hence [has_permission] on
    the normalized ACL, as [list_permissions] calls it, agrees with
    [has_permission] on the resource. *)
Theorem normalize_acl_idempotent (resource acl : value entry) :
  normalize_acl resource = Ok acl →
  is_like_list acl = true →
  accessor acl = None →
  normalize_acl acl = Ok acl ∧
  (acl' ← normalize_acl resource; normalize_acl acl') = normalize_acl resource ∧
  ∀ (user : value principal) (p : permission),
    has_permission user p acl = has_permission user p resource.
Proof.
  intros Hr Hlike Hacc.
  assert (Ha : normalize_acl acl = Ok acl).
  { unfold normalize_acl. rewrite getattr_accessor, Hacc, Hlike. reflexivity. }
  split; [exact Ha|]. split.
  - rewrite Hr. exact Ha.
  - intros user p. unfold has_permission. rewrite Ha, Hr. reflexivity.
Qed.

(** ** The principals of a user *)

(** C2. [normalize_principals] returns exactly [{Everyone}] when the user
    has no [principals] attribute or the collection, obtained by a call
    when the attribute is callable, is empty; otherwise it returns the
    union of [{Everyone, Authenticated}] with the collection, as a set.
    It does not raise for a user without the attribute. *)
Theorem normalize_principals_union (user : value principal) :
  (principals_attribute user = None →
     normalize_principals user = Ok {[Everyone]}) ∧
  (principals_collection user = VList [] →
     normalize_principals user = Ok {[Everyone]}) ∧
  (∀ ps : list principal,
     principals_collection user = VList ps → ps ≠ [] →
     ∃ held : gset principal,
       normalize_principals user = Ok held ∧
       held = {[Everyone; Authenticated]} ∪ list_to_set ps ∧
       ∀ x, x ∈ held ↔ x = Everyone ∨ x = Authenticated ∨ x ∈ ps).
Proof.
  rewrite normalize_principals_collection. split; [|split].
  - unfold principals_collection. intros ->. reflexivity.
  - intros ->. reflexivity.
  - intros ps -> Hne. destruct ps as [|x ps]; [done|].
    cbn [truthy iter mbind result_bind].
    rewrite <- list_fmap_compose.
    change (hashed ∘ inl) with (@id principal). rewrite list_fmap_id.
    eexists; split; [reflexivity|]. split; [reflexivity|].
    intros y. rewrite !elem_of_union, !elem_of_singleton, elem_of_list_to_set.
    tauto.
Qed.

(** ** Listing the permissions *)

Lemma has_permission_decision user p resource held (acl : list entry) :
  normalize_principals user = Ok held →
  normalize_acl resource = Ok (VList acl) →
  has_permission user p resource = Ok (decision held p acl).
Proof.
  intros Hu Hr. rewrite (has_permission_normalized _ _ _ _ _ Hu Hr).
  apply has_permission_loop_find.
Qed.

Lemma dict_comprehension_lookup {K V} `{Countable K}
    (key : permission → K) (val : permission → result V)
    (f : permission → V) (order : list permission) (d : gmap K V) :
  (∀ p, p ∈ order → val p = Ok (f p)) →
  ∃ m, dict_comprehension key val order d = Ok m ∧
    ∀ k, (m !! k = d !! k ∧ ∀ p, p ∈ order → key p ≠ k) ∨
         (∃ p, p ∈ order ∧ key p = k ∧ m !! k = Some (f p)).
Proof.
  revert d. induction order as [|p rest IH]; intros d Hval.
  - exists d. split; [reflexivity|]. intros k. left. split; [done|].
    intros p Hp. by apply not_elem_of_nil in Hp.
  - cbn [dict_comprehension]. rewrite (Hval p) by left.
    cbn [mbind result_bind].
    destruct (IH (<[key p := f p]> d)) as (m & Hm & Hlookup).
    { intros q Hq. apply Hval. by right. }
    exists m. split; [exact Hm|]. intros k.
    destruct (Hlookup k) as [[Hk Hrest]|(q & Hq & Hkey & Hk)].
    + destruct (decide (key p = k)) as [Heq|Hne].
      * right. exists p. split; [left|]. split; [exact Heq|].
        rewrite Hk, <- Heq. apply lookup_insert_eq.
      * left. split.
        -- rewrite Hk. by apply lookup_insert_ne.
        -- intros q [->|Hq]%elem_of_cons; [exact Hne|by apply Hrest].
    + right. exists q. split; [by right|]. done.
Qed.

Lemma mapM_unpack_permissions (acl : list entry) :
  mapM (M := result)
    (λ item, '(_, _, permissions) ← unpack item; Ok permissions)
    (inl <$> acl)
  = Ok ((λ e : entry, e.2) <$> acl).
Proof.
  induction acl as [|[[a pr] perms] acl IH]; [reflexivity|].
  rewrite fmap_cons. cbn [mapM]. rewrite IH. reflexivity.
Qed.

Lemma mapM_as_iterables (l : list permissions) :
  mapM (M := result)
    (λ p, if negb (is_like_list p) then singleton_set p else members p) l
  = Ok (contribution <$> l).
Proof.
  induction l as [|perms l IH]; [reflexivity|].
  cbn [mapM]. rewrite IH. destruct perms; reflexivity.
Qed.

Lemma mentioned_Name (acl : list entry) (k : string) :
  Name k ∈ mentioned acl ↔
  ∃ e, e ∈ acl ∧ match e.2 with
                 | PStr s => k = s
                 | PSet names => k ∈ names
                 | PAll => False
                 end.
Proof.
  unfold mentioned. rewrite list_elem_of_join. split.
  - intros (l & Hk & (e & -> & He)%list_elem_of_fmap).
    exists e. split; [exact He|].
    destruct e as [[a pr] [s|names|]]; simpl in *.
    + apply list_elem_of_singleton in Hk. congruence.
    + apply list_elem_of_fmap in Hk as (t & [= ->] & Ht). exact Ht.
    + apply list_elem_of_singleton in Hk. discriminate.
  - intros (e & He & Hk). exists (contribution e.2).
    split; [|apply list_elem_of_fmap; eauto].
    destruct e as [[a pr] [s|names|]]; simpl in *.
    + subst. left.
    + apply list_elem_of_fmap. eauto.
    + done.
Qed.

(** A name no entry mentions is covered by the entries with [All] only,
    as the sentinel itself is. *)
Lemma decision_unmentioned held (acl : list entry) (k : string) :
  Name k ∉ mentioned acl →
  decision held AllObj acl = decision held (Name k) acl.
Proof.
  unfold decision. induction acl as [|[[a pr] perms] acl IH]; [done|].
  intros Hk.
  assert (Hrest : Name k ∉ mentioned acl).
  { intros Hin. apply Hk. unfold mentioned. rewrite fmap_cons. simpl.
    apply elem_of_app. by right. }
  assert (Hhead : covers perms AllObj ↔ covers perms (Name k)).
  { destruct perms as [s|names|]; simpl; [| |done].
    - split; [done|]. intros ->. apply Hk. unfold mentioned.
      rewrite fmap_cons. simpl. left.
    - split; [done|]. intros Hin. apply Hk. unfold mentioned.
      rewrite fmap_cons. simpl. apply elem_of_app. left.
      apply list_elem_of_fmap. eauto. }
  cbn [list_find].
  destruct (decide (matches held AllObj (a, pr, perms))) as [Hm|Hm].
  - rewrite decide_True by (unfold matches in *; cbn [fst snd] in *; tauto).
    reflexivity.
  - rewrite decide_False by (unfold matches in *; cbn [fst snd] in *; tauto).
    specialize (IH Hrest).
    destruct (list_find (matches held AllObj) acl) as [[i [[a1 pr1] perms1]]|],
      (list_find (matches held (Name k)) acl) as [[j [[a2 pr2] perms2]]|];
      simpl; exact IH.
Qed.

Lemma list_permissions_comprehension set_iter user resource
    (acl : list entry) :
  normalize_acl resource = Ok (VList acl) →
  list_permissions set_iter user resource =
  dict_comprehension str (λ p, has_permission user p (VList acl))
    (set_iter (list_to_set (mentioned acl))) ∅.
Proof.
  intros Hr. unfold list_permissions. rewrite Hr.
  cbn [mbind result_bind iter].
  rewrite mapM_unpack_permissions. cbn [mbind result_bind].
  rewrite mapM_as_iterables. cbn [mbind result_bind].
  rewrite <- list_fmap_compose. reflexivity.
Qed.

Lemma list_permissions_lookup set_iter user resource held
    (acl : list entry) :
  (∀ X, set_iter X ≡ₚ elements X) →
  normalize_principals user = Ok held →
  normalize_acl resource = Ok (VList acl) →
  ∃ m : gmap string bool,
    list_permissions set_iter user resource = Ok m ∧
    ∀ k : string,
      (m !! k = None ∧ ∀ p, p ∈ mentioned acl → str p ≠ k) ∨
      (∃ p, p ∈ mentioned acl ∧ str p = k ∧
            m !! k = Some (decision held p acl)).
Proof.
  intros Hiter Hu Hr. rewrite (list_permissions_comprehension _ _ _ _ Hr).
  destruct (dict_comprehension_lookup str
              (λ p, has_permission user p (VList acl))
              (λ p, decision held p acl)
              (set_iter (list_to_set (mentioned acl))) ∅)
    as (m & Hm & Hlookup).
  { intros p _. by apply has_permission_decision. }
  assert (Hin : ∀ p, p ∈ set_iter (list_to_set (mentioned acl))
                     ↔ p ∈ mentioned acl).
  { intros p. rewrite (Hiter _), elem_of_elements, elem_of_list_to_set. done. }
  exists m. split; [exact Hm|]. intros k.
  destruct (Hlookup k) as [[Hk Hnone]|(p & Hp & Hkey & Hk)].
  - left. rewrite Hk, lookup_empty. split; [done|].
    intros p Hp. apply Hnone, Hin, Hp.
  - right. exists p. rewrite <- Hin. done.
Qed.

Lemma str_inv (p : permission) (k : string) :
  str p = k → p = Name k ∨ (p = AllObj ∧ k = "permissions:*").
Proof. destruct p; simpl; intros <-; eauto. Qed.

(** C6, as the code has it. [list_permissions] returns a mapping whose
    keys are exactly the textual forms of the distinct permissions the
    ACL's entries mention: every name of a scalar or collection field,
    and ["permissions:*"] when a field is [All].  Each key maps to the
    boolean [has_permission] returns for a mentioned permission with that
    textual form; unless the ACL mentions both [All] and the literal name
    ["permissions:*"], that is the boolean [has_permission] returns for
    the key.  A name no entry mentions is absent, except
    ["permissions:*"] in the presence of [All]. *)
Theorem list_permissions_enumerates
    (set_iter : gset permission → list permission)
    (user : value principal) (resource : value entry)
    (held : gset principal) (acl : list entry) :
  (∀ X, set_iter X ≡ₚ elements X) →
  normalize_principals user = Ok held →
  normalize_acl resource = Ok (VList acl) →
  ∃ m : gmap string bool,
    list_permissions set_iter user resource = Ok m ∧
    (∀ k, is_Some (m !! k) ↔
          Name k ∈ mentioned acl ∨
          (AllObj ∈ mentioned acl ∧ k = "permissions:*")) ∧
    (∀ k b, m !! k = Some b →
       ∃ p, p ∈ mentioned acl ∧ str p = k ∧
            has_permission user p resource = Ok b) ∧
    (¬ (AllObj ∈ mentioned acl ∧ Name "permissions:*" ∈ mentioned acl) →
     ∀ k b, m !! k = Some b →
       has_permission user (Name k) resource = Ok b) ∧
    (∀ k, Name k ∉ mentioned acl →
          ¬ (AllObj ∈ mentioned acl ∧ k = "permissions:*") →
          m !! k = None).
Proof.
  intros Hiter Hu Hr.
  destruct (list_permissions_lookup _ _ _ _ _ Hiter Hu Hr) as (m & Hm & Hlookup).
  assert (Hvalues : ∀ k b, m !! k = Some b →
     ∃ p, p ∈ mentioned acl ∧ str p = k ∧
          has_permission user p resource = Ok b).
  { intros k b Hk. destruct (Hlookup k) as [[Hnone _]|(p & Hp & Hkey & Hsome)].
    - congruence.
    - exists p. split; [exact Hp|]. split; [exact Hkey|].
      rewrite (has_permission_decision _ _ _ _ _ Hu Hr). congruence. }
  exists m. split; [exact Hm|]. split; [|split; [exact Hvalues|split]].
  - intros k. split.
    + intros [b Hk]. destruct (Hvalues k b Hk) as (p & Hp & Hkey & _).
      destruct (str_inv _ _ Hkey) as [->|[-> ->]]; eauto.
    + intros Hk. destruct (Hlookup k) as [[_ Hnone]|(p & _ & _ & Hsome)];
        [|eauto].
      destruct Hk as [Hk|[Hk ->]]; destruct (Hnone _ Hk); reflexivity.
  - intros Hclash k b Hk. destruct (Hvalues k b Hk) as (p & Hp & Hkey & Hb).
    destruct (str_inv _ _ Hkey) as [->|[-> ->]]; [exact Hb|].
    rewrite (has_permission_decision _ AllObj _ _ _ Hu Hr) in Hb.
    rewrite (has_permission_decision _ _ _ _ _ Hu Hr).
    rewrite <- (decision_unmentioned held acl "permissions:*"); [exact Hb|].
    tauto.
  - intros k Hname Hall.
    destruct (Hlookup k) as [[Hnone _]|(p & Hp & Hkey & _)]; [exact Hnone|].
    destruct (str_inv _ _ Hkey) as [->|[-> ->]]; [done|tauto].
Qed.

(** C7. When [All] is the permissions field of an entry,
    [list_permissions] has one key for it, its textual form
    ["permissions:*"], and no key for any name the ACL does not mention;
    for the ACL whose only entry is [(Allow, Everyone, All)] the mapping
    has exactly that one key. *)
Theorem list_permissions_All_key
    (set_iter : gset permission → list permission)
    (user : value principal) (resource : value entry)
    (held : gset principal) (acl : list entry) :
  (∀ X, set_iter X ≡ₚ elements X) →
  normalize_principals user = Ok held →
  normalize_acl resource = Ok (VList acl) →
  str AllObj = "permissions:*" ∧
  ∃ m : gmap string bool,
    list_permissions set_iter user resource = Ok m ∧
    ((∃ a pr, (a, pr, All) ∈ acl) → is_Some (m !! "permissions:*")) ∧
    (∀ k, is_Some (m !! k) → Name k ∉ mentioned acl → k = "permissions:*") ∧
    (acl = [ALOW_ALL] → m = {["permissions:*" := true]}).
Proof.
  intros Hiter Hu Hr. split; [reflexivity|].
  destruct (list_permissions_lookup _ _ _ _ _ Hiter Hu Hr) as (m & Hm & Hlookup).
  exists m. split; [exact Hm|]. split; [|split].
  - intros (a & pr & Hin).
    destruct (Hlookup "permissions:*") as [[_ Hnone]|(p & _ & _ & Hsome)];
      [|eauto].
    destruct (Hnone AllObj); [|reflexivity].
    unfold mentioned. apply list_elem_of_join. exists [AllObj].
    split; [left|]. apply list_elem_of_fmap. exists (a, pr, All). done.
  - intros k [b Hk] Hname.
    destruct (Hlookup k) as [[Hnone _]|(p & Hp & Hkey & _)]; [congruence|].
    destruct (str_inv _ _ Hkey) as [->|[_ ->]]; done.
  - intros ->. apply map_eq. intros k.
    pose proof (normalize_principals_Everyone _ _ Hu) as He.
    destruct (Hlookup k) as [[Hnone Hkey]|(p & Hp & Hkey & Hsome)].
    + rewrite Hnone. symmetry. apply lookup_singleton_ne.
      apply (Hkey AllObj). left.
    + apply list_elem_of_singleton in Hp. subst p. simpl in Hkey. subst k.
      rewrite Hsome, lookup_singleton_eq. f_equal.
      unfold decision, ALOW_ALL. cbn [list_find].
      rewrite decide_True; [reflexivity|]. split; [exact I|exact He].
Qed.

(** ** What can be raised *)

Lemma normalize_acl_returns (resource : value entry) :
  ∃ acl, normalize_acl resource = Ok acl.
Proof.
  unfold normalize_acl.
  destruct (getattr resource "__acl__" VNone);
    cbn [callable call is_None negb]; eauto.
  destruct (is_like_list resource); eauto.
Qed.

Lemma normalize_principals_raises user e :
  normalize_principals user = Raise e → e = TypeError.
Proof.
  rewrite normalize_principals_collection.
  destruct (truthy _); [|discriminate].
  destruct (principals_collection user);
    cbn [iter mbind result_bind]; congruence.
Qed.

Lemma has_permission_loop_raises held p items e :
  has_permission_loop held p items = Raise e → e = ValueError.
Proof.
  induction items as [|[[[a pr] perms]|c] items IH]; [discriminate| |].
  - rewrite has_permission_loop_cons. destruct (decide _); [discriminate|done].
  - cbn [has_permission_loop unpack mbind result_bind]. congruence.
Qed.

Lemma has_permission_raises user p resource e :
  has_permission user p resource = Raise e →
  e = TypeError ∨ e = ValueError.
Proof.
  unfold has_permission.
  destruct (normalize_principals user) as [held|e'] eqn:Hu;
    cbn [mbind result_bind].
  - destruct (normalize_acl_returns resource) as [acl ->].
    cbn [mbind result_bind].
    destruct (iter acl) as [items|e'] eqn:Hit; cbn [mbind result_bind].
    + intros ->%has_permission_loop_raises. by right.
    + destruct acl; simpl in Hit; left; congruence.
  - intros [= <-]. left. by apply (normalize_principals_raises user).
Qed.

Lemma mapM_raises {A B} (f : A → result B) (P : exn → Prop) l e :
  (∀ x e', f x = Raise e' → P e') →
  mapM (M := result) f l = Raise e → P e.
Proof.
  intros Hf. induction l as [|x l IH]; [discriminate|].
  cbn [mapM]. destruct (f x) as [y|e'] eqn:Hx; cbn [mbind result_bind].
  - destruct (mapM f l); cbn [mbind result_bind mret result_ret];
      [discriminate|]. intros [= <-]. by apply IH.
  - intros [= <-]. by apply (Hf x).
Qed.

Lemma dict_comprehension_raises {K V} `{Countable K}
    (key : permission → K) (val : permission → result V)
    (P : exn → Prop) order d e :
  (∀ p e', val p = Raise e' → P e') →
  dict_comprehension key val order d = Raise e → P e.
Proof.
  intros Hval. revert d. induction order as [|p rest IH]; intros d;
    [discriminate|].
  cbn [dict_comprehension]. destruct (val p) as [v|e'] eqn:Hp;
    cbn [mbind result_bind].
  - apply IH.
  - intros [= <-]. by apply (Hval p).
Qed.

Lemma list_permissions_raises set_iter user resource e :
  list_permissions set_iter user resource = Raise e →
  e = TypeError ∨ e = ValueError.
Proof.
  unfold list_permissions.
  destruct (normalize_acl_returns resource) as [acl ->].
  cbn [mbind result_bind].
  destruct (iter acl) as [items|e'] eqn:Hit; cbn [mbind result_bind].
  - destruct (mapM _ items) as [ps|e'] eqn:Hps; cbn [mbind result_bind].
    + destruct (mapM _ ps) as [its|e'] eqn:Hits; cbn [mbind result_bind].
      * apply (dict_comprehension_raises _ _
                 (λ e, e = TypeError ∨ e = ValueError)).
        intros p e'. apply has_permission_raises.
      * intros [= <-]. revert Hits.
        apply (mapM_raises _ (λ e, e = TypeError ∨ e = ValueError)).
        intros [s|names|] e''; simpl; intros [=]; by left.
    + intros [= <-]. revert Hps.
      apply (mapM_raises _ (λ e, e = TypeError ∨ e = ValueError)).
      intros [[[a pr] perms]|c] e''; simpl; intros [=]; by right.
  - destruct acl; simpl in Hit; left; congruence.
Qed.

Lemma list_permissions_returns set_iter user resource held
    (acl : list entry) :
  normalize_principals user = Ok held →
  normalize_acl resource = Ok (VList acl) →
  ∃ m, list_permissions set_iter user resource = Ok m.
Proof.
  intros Hu Hr. rewrite (list_permissions_comprehension _ _ _ _ Hr).
  destruct (dict_comprehension_lookup str
              (λ p, has_permission user p (VList acl))
              (λ p, decision held p acl)
              (set_iter (list_to_set (mentioned acl))) ∅)
    as (m & Hm & _); [|eauto].
  intros p _. by apply has_permission_decision.
Qed.

(** ** The dependency *)

(** C8. For every resolved user and resource, the dependency returns
    [grant_class(user=user, resource=resource)] iff [has_permission] is
    true and raises the configured exception iff it is false; the default
    exception is the HTTP 403 with the challenge header
    [WWW-Authenticate: Bearer].  [has_permission] and [list_permissions]
    answer a denial by a value: on a user and a resource that normalize
    they return, and nothing they raise is an [HTTPException]. *)
Theorem permission_dependency_grants_or_raises {G : Type}
    (grant_class : value principal → value entry → G) (exc : exn)
    (permission : string) (resource : value entry) (user : value principal) :
  (permission_dependency_factory permission grant_class exc resource user
     = Ok (grant_class user resource)
   ↔ has_permission user (Name permission) resource = Ok true) ∧
  (∀ granted : bool,
     has_permission user (Name permission) resource = Ok granted →
     (permission_dependency_factory permission grant_class exc resource user
        = Raise exc
      ↔ granted = false)) ∧
  (configure_permissions Build_Grant permission_exception
       permission resource user
     = Raise (HTTPException 403 "Insufficient permissions"
                [("WWW-Authenticate", "Bearer")])
   ↔ has_permission user (Name permission) resource = Ok false) ∧
  (∀ p e, has_permission user p resource = Raise e →
          e = TypeError ∨ e = ValueError) ∧
  (∀ set_iter e, list_permissions set_iter user resource = Raise e →
                 e = TypeError ∨ e = ValueError) ∧
  (∀ held acl,
     normalize_principals user = Ok held →
     normalize_acl resource = Ok (VList acl) →
     (∀ p, ∃ granted, has_permission user p resource = Ok granted) ∧
     (∀ set_iter, ∃ m, list_permissions set_iter user resource = Ok m)).
Proof.
  unfold configure_permissions, permission_dependency_factory,
    permission_exception, HTTP_403_FORBIDDEN.
  split; [|split; [|split; [|split; [|split]]]].
  - destruct (has_permission user (Name permission) resource) as [[]|e];
      cbn [mbind result_bind]; split; congruence.
  - intros granted ->. cbn [mbind result_bind].
    destruct granted; split; congruence.
  - destruct (has_permission user (Name permission) resource) as [[]|e] eqn:Hp;
      cbn [mbind result_bind]; split; try congruence.
    intros [= ->]. apply has_permission_raises in Hp as [?|?]; discriminate.
  - intros p e. apply has_permission_raises.
  - intros set_iter e. apply list_permissions_raises.
  - intros held acl Hu Hr. split.
    + intros p. rewrite (has_permission_decision _ _ _ _ _ Hu Hr). eauto.
    + intros set_iter. by eapply list_permissions_returns.
Qed.

(** ** A resource without ACL *)

Lemma normalize_principals_list_returns (user : value principal)
    (ps : list principal) :
  principals_collection user = VList ps →
  ∃ held, normalize_principals user = Ok held.
Proof.
  intros Hc. rewrite normalize_principals_collection, Hc.
  destruct ps; cbn [truthy iter mbind result_bind]; eauto.
Qed.

(** C4, as the code has it. A resource without ACL accessor that is not
    iterable has the empty ACL, so [has_permission] returns false on it
    for every requested permission and every user whose principals
    normalize, among them every user without [principals] attribute and
    every user whose collection is a list: a denial, not an exception.
    For a user on whom [normalize_principals] raises, [has_permission]
    raises [TypeError] before the ACL is looked at. *)
Theorem no_acl_fails_closed (resource : value entry) :
  accessor resource = None →
  hasattr_iter resource = false →
  normalize_acl resource = Ok (VList []) ∧
  (∀ (user : value principal) (held : gset principal) (p : permission),
     normalize_principals user = Ok held →
     has_permission user p resource = Ok false) ∧
  (∀ (user : value principal) (ps : list principal) (p : permission),
     principals_attribute user = None ∨
     principals_collection user = VList ps →
     has_permission user p resource = Ok false) ∧
  (∀ (user : value principal) (e : exn) (p : permission),
     normalize_principals user = Raise e →
     has_permission user p resource = Raise TypeError).
Proof.
  intros Hacc Hit.
  assert (Hr : normalize_acl resource = Ok (VList [])).
  { unfold normalize_acl, is_like_list.
    rewrite getattr_accessor, Hacc, Hit. cbn [callable is_None negb].
    destruct (isinstance_str resource); reflexivity. }
  assert (Hdenied : ∀ user held p,
    normalize_principals user = Ok held →
    has_permission user p resource = Ok false).
  { intros user held p Hu.
    rewrite (has_permission_normalized _ _ _ _ _ Hu Hr). reflexivity. }
  split; [exact Hr|]. split; [exact Hdenied|]. split.
  - intros user ps p Hmodel.
    assert (Hlist : ∃ ps', principals_collection user = VList ps').
    { destruct Hmodel as [Habsent|Hc]; [|eauto].
      unfold principals_collection. rewrite Habsent. eauto. }
    destruct Hlist as [ps' Hc].
    destruct (normalize_principals_list_returns _ _ Hc) as [held Hu].
    by apply (Hdenied user held).
  - intros user e p Hu. unfold has_permission. rewrite Hu.
    cbn [mbind result_bind]. f_equal.
    by apply (normalize_principals_raises user).
Qed.

(** * Concrete instances *)

(** ** The scenarios of the specification *)

Example admin_principals :
  normalize_principals admin_user
  = Ok {[Everyone; Authenticated; "role:admin"]}.
Proof. vm_compute. reflexivity. Qed.

Example editor_principals_collapse :
  elements <$> normalize_principals editor_user
  = Ok [Everyone; Authenticated; "role:editor"].
Proof. vm_compute. reflexivity. Qed.

Example order_sensitivity :
  has_permission admin_user (Name "view") guarded_item = Ok false.
Proof. vm_compute. reflexivity. Qed.

Example editor_scenario :
  has_permission editor_user (Name "view") article = Ok true ∧
  has_permission editor_user (Name "edit") article = Ok true ∧
  has_permission anonymous (Name "edit") article = Ok false.
Proof. vm_compute. auto. Qed.

Example shorthand_list_resource :
  has_permission anonymous (Name "view") (VList [(Allow, Everyone, PStr "view")])
  = Ok true.
Proof. vm_compute. reflexivity. Qed.

Example article_listing :
  list_permissions elements editor_user article
  = Ok {["view" := true; "edit" := true]}.
Proof. vm_compute. reflexivity. Qed.

Example malformed_acl_raises :
  has_permission anonymous (Name "view") (VObj {["__acl__" := VInt 3]})
  = Raise TypeError ∧
  has_permission anonymous (Name "view") (VObj {["__acl__" := VStr "abc"]})
  = Raise ValueError ∧
  normalize_principals (VObj {["principals" := VInt 5]}) = Raise TypeError.
Proof. vm_compute. auto. Qed.

(** ** The theorems at sample inputs *)

Lemma has_permission_first_match_witness :
  normalize_principals admin_user = Ok admin_held ∧
  normalize_acl guarded_item = Ok (VList guarded_acl) ∧
  ∃ granted : bool,
    has_permission admin_user (Name "view") guarded_item = Ok granted ∧
    (granted = true ↔
       ∃ (i : nat) (e : entry),
         guarded_acl !! i = Some e ∧ matches admin_held (Name "view") e ∧
         e.1.1 = Allow ∧
         ∀ (j : nat) (e' : entry),
           guarded_acl !! j = Some e' → j < i →
           ¬ matches admin_held (Name "view") e') ∧
    ((∀ e, e ∈ guarded_acl → ¬ matches admin_held (Name "view") e) →
     granted = false) ∧
    (∀ e rest, guarded_acl = e :: rest → covers e.2 (Name "view") →
       e.1.2 ∉ admin_held →
       has_permission admin_user (Name "view") (VList rest) = Ok granted).
Proof.
  split; [vm_compute; reflexivity|]. split; [reflexivity|].
  apply (has_permission_first_match admin_user (Name "view") guarded_item
           admin_held guarded_acl).
  - vm_compute; reflexivity.
  - reflexivity.
Defined.

Lemma allow_all_grants_everything_witness :
  normalize_principals anonymous = Ok {[Everyone]} ∧
  normalize_acl (VList [ALOW_ALL]) = Ok (VList [ALOW_ALL]) ∧
  has_permission anonymous (Name "anything") (VList [ALOW_ALL]) = Ok true ∧
  contains (Name "anything") All = Ok true ∧
  Everyone ∈ ({[Everyone]} : gset principal).
Proof.
  split; [reflexivity|]. split; [reflexivity|].
  apply (allow_all_grants_everything anonymous (Name "anything")
           (VList [ALOW_ALL]) {[Everyone]}); reflexivity.
Defined.

Lemma str_permissions_match_exactly_witness :
  normalize_principals admin_user = Ok admin_held ∧
  Everyone ∈ admin_held ∧
  has_permission admin_user (Name "vi")
    (VList ((Allow, Everyone, PStr "view") :: guarded_acl)) =
    (if decide ("vi" = "view") then Ok (String.eqb Allow Allow)
     else has_permission admin_user (Name "vi") (VList guarded_acl)) ∧
  (has_permission admin_user (Name "vi")
     (VList [(Allow, Everyone, PStr "view")]) = Ok true
   ↔ "vi" = "view") ∧
  has_permission admin_user (Name "vi")
    (VList [(Allow, Everyone, PStr "view")]) = Ok false ∧
  contains (Name "vi") (PStr "view") = Ok true.
Proof.
  split; [vm_compute; reflexivity|].
  split; [by vm_compute|].
  apply (str_permissions_match_exactly admin_user admin_held Allow Everyone
           "view" "vi" guarded_acl).
  - vm_compute; reflexivity.
  - by vm_compute.
Defined.

Lemma normalize_acl_priority_witness :
  normalize_acl article = Ok (VList article_acl) ∧
  normalize_acl guarded_item = Ok (VList guarded_acl) ∧
  normalize_acl (VList guarded_acl) = Ok (VList guarded_acl) ∧
  normalize_acl (VStr "view") = Ok (VList []).
Proof.
  split; [|split; [|split]].
  - destruct (normalize_acl_priority article) as (Hcall & _).
    apply Hcall. reflexivity.
  - destruct (normalize_acl_priority guarded_item) as (_ & Hattr & _).
    apply Hattr; [reflexivity|discriminate|reflexivity].
  - destruct (normalize_acl_priority (VList guarded_acl)) as (_ & _ & Hself & _).
    apply Hself; [left|..]; reflexivity.
  - destruct (normalize_acl_priority (VStr "view")) as (_ & _ & Hempty & _).
    apply Hempty; [left|right]; reflexivity.
Defined.

Lemma no_acl_fails_closed_witness :
  accessor (VInt 7) = None ∧
  hasattr_iter (VInt 7 : value entry) = false ∧
  normalize_acl (VInt 7) = Ok (VList []) ∧
  (∀ (user : value principal) (held : gset principal) (p : permission),
     normalize_principals user = Ok held →
     has_permission user p (VInt 7) = Ok false) ∧
  (∀ (user : value principal) (ps : list principal) (p : permission),
     principals_attribute user = None ∨
     principals_collection user = VList ps →
     has_permission user p (VInt 7) = Ok false) ∧
  (∀ (user : value principal) (e : exn) (p : permission),
     normalize_principals user = Raise e →
     has_permission user p (VInt 7) = Raise TypeError).
Proof.
  split; [reflexivity|]. split; [reflexivity|].
  apply (no_acl_fails_closed (VInt 7)); reflexivity.
Defined.

(** The claim C4 promises a denial for every user.  The number 7 has no
    ACL accessor and is not iterable, and its ACL is empty; yet for the
    user whose [principals] is the number 5 the union in
    [normalize_principals] raises [TypeError], and [has_permission]
    raises with it before it reaches the ACL. *)
Lemma no_acl_raises_counterexample :
  accessor (VInt 7) = None ∧
  hasattr_iter (VInt 7 : value entry) = false ∧
  normalize_acl (VInt 7) = Ok (VList []) ∧
  normalize_principals numbered_user = Raise TypeError ∧
  has_permission numbered_user (Name "view") (VInt 7) = Raise TypeError ∧
  ¬ (∀ (user : value principal) (p : permission),
       has_permission user p (VInt 7) = Ok false).
Proof.
  assert (Hraise :
    has_permission numbered_user (Name "view") (VInt 7) = Raise TypeError)
    by reflexivity.
  split; [reflexivity|]. split; [reflexivity|]. split; [reflexivity|].
  split; [reflexivity|]. split; [exact Hraise|].
  intros Hclaim. rewrite (Hclaim numbered_user (Name "view")) in Hraise.
  discriminate.
Qed.

Lemma normalize_acl_idempotent_witness :
  normalize_acl article = Ok (VList article_acl) ∧
  is_like_list (VList article_acl) = true ∧
  accessor (VList article_acl) = None ∧
  normalize_acl (VList article_acl) = Ok (VList article_acl) ∧
  (acl' ← normalize_acl article; normalize_acl acl') = normalize_acl article ∧
  ∀ (user : value principal) (p : permission),
    has_permission user p (VList article_acl) = has_permission user p article.
Proof.
  split; [reflexivity|]. split; [reflexivity|]. split; [reflexivity|].
  apply (normalize_acl_idempotent article (VList article_acl)); reflexivity.
Defined.

Lemma normalize_principals_union_witness :
  principals_attribute (VInt 7) = None ∧
  normalize_principals (VInt 7) = Ok {[Everyone]} ∧
  principals_collection admin_user = VList ["role:admin"] ∧
  ∃ held : gset principal,
    normalize_principals admin_user = Ok held ∧
    held = {[Everyone; Authenticated]} ∪ list_to_set ["role:admin"] ∧
    ∀ x, x ∈ held ↔ x = Everyone ∨ x = Authenticated ∨ x ∈ ["role:admin"].
Proof.
  split; [reflexivity|]. split.
  - destruct (normalize_principals_union (VInt 7)) as (Habsent & _).
    apply Habsent. reflexivity.
  - split; [reflexivity|].
    destruct (normalize_principals_union admin_user) as (_ & _ & Hunion).
    apply Hunion; [reflexivity|discriminate].
Defined.

Lemma list_permissions_enumerates_witness :
  (∀ X : gset permission, elements X ≡ₚ elements X) ∧
  normalize_principals admin_user = Ok admin_held ∧
  normalize_acl article = Ok (VList article_acl) ∧
  ∃ m : gmap string bool,
    list_permissions elements admin_user article = Ok m ∧
    (∀ k, is_Some (m !! k) ↔
          Name k ∈ mentioned article_acl ∨
          (AllObj ∈ mentioned article_acl ∧ k = "permissions:*")) ∧
    (∀ k b, m !! k = Some b →
       ∃ p, p ∈ mentioned article_acl ∧ str p = k ∧
            has_permission admin_user p article = Ok b) ∧
    (¬ (AllObj ∈ mentioned article_acl ∧
        Name "permissions:*" ∈ mentioned article_acl) →
     ∀ k b, m !! k = Some b →
       has_permission admin_user (Name k) article = Ok b) ∧
    (∀ k, Name k ∉ mentioned article_acl →
          ¬ (AllObj ∈ mentioned article_acl ∧ k = "permissions:*") →
          m !! k = None).
Proof.
  split; [reflexivity|]. split; [vm_compute; reflexivity|].
  split; [reflexivity|].
  apply (list_permissions_enumerates elements admin_user article
           admin_held article_acl).
  - reflexivity.
  - vm_compute; reflexivity.
  - reflexivity.
Defined.

Lemma list_permissions_All_key_witness :
  (∀ X : gset permission, elements X ≡ₚ elements X) ∧
  normalize_principals anonymous = Ok {[Everyone]} ∧
  normalize_acl (VList [ALOW_ALL]) = Ok (VList [ALOW_ALL]) ∧
  str AllObj = "permissions:*" ∧
  ∃ m : gmap string bool,
    list_permissions elements anonymous (VList [ALOW_ALL]) = Ok m ∧
    ((∃ a pr, (a, pr, All) ∈ [ALOW_ALL]) → is_Some (m !! "permissions:*")) ∧
    (∀ k, is_Some (m !! k) → Name k ∉ mentioned [ALOW_ALL] →
          k = "permissions:*") ∧
    ([ALOW_ALL] = [ALOW_ALL] → m = {["permissions:*" := true]}).
Proof.
  split; [reflexivity|]. split; [reflexivity|]. split; [reflexivity|].
  apply (list_permissions_All_key elements anonymous (VList [ALOW_ALL])
           {[Everyone]} [ALOW_ALL]); reflexivity.
Defined.

Lemma permission_dependency_grants_or_raises_witness :
  has_permission admin_user (Name "view") guarded_item = Ok false ∧
  normalize_principals admin_user = Ok admin_held ∧
  normalize_acl guarded_item = Ok (VList guarded_acl) ∧
  configure_permissions Build_Grant permission_exception
    "view" guarded_item admin_user
  = Raise (HTTPException 403 "Insufficient permissions"
             [("WWW-Authenticate", "Bearer")]) ∧
  (∀ p, ∃ granted, has_permission admin_user p guarded_item = Ok granted) ∧
  (∀ set_iter, ∃ m, list_permissions set_iter admin_user guarded_item = Ok m).
Proof.
  assert (Hdenied :
    has_permission admin_user (Name "view") guarded_item = Ok false)
    by (vm_compute; reflexivity).
  assert (Hu : normalize_principals admin_user = Ok admin_held)
    by (vm_compute; reflexivity).
  assert (Hr : normalize_acl guarded_item = Ok (VList guarded_acl))
    by reflexivity.
  destruct (permission_dependency_grants_or_raises Build_Grant
              permission_exception "view" guarded_item admin_user)
    as (_ & _ & Hdefault & _ & _ & Hreturns).
  split; [exact Hdenied|]. split; [exact Hu|]. split; [exact Hr|].
  split; [apply Hdefault, Hdenied|].
  exact (Hreturns admin_held guarded_acl Hu Hr).
Defined.

(** ** Where the listing departs from the names of the ACL *)

(** The claim C6 reads the keys as the permission names of the ACL and
    the value of a key as what [has_permission] returns for that name.
    The ACL [[(Allow, Everyone, All)]] mentions no name, yet its listing
    has the key ["permissions:*"].  With [clash_acl], which also denies
    the name ["permissions:*"], the set of available permissions has two
    members with that textual form; when the name is yielded first and
    [All] last, as here, the key maps to true although [has_permission]
    denies the name. *)
Lemma list_permissions_names_counterexample :
  mentioned [ALOW_ALL] = [AllObj] ∧
  list_permissions elements anonymous (VList [ALOW_ALL])
    = Ok {["permissions:*" := true]} ∧
  elements (list_to_set (mentioned clash_acl) : gset permission)
    = [Name "permissions:*"; AllObj] ∧
  list_permissions elements anonymous (VList clash_acl)
    = Ok {["permissions:*" := true]} ∧
  has_permission anonymous (Name "permissions:*") (VList clash_acl)
    = Ok false ∧
  ¬ (∀ (user : value principal) (acl : list entry) (m : gmap string bool),
       list_permissions elements user (VList acl) = Ok m →
       ∀ k, is_Some (m !! k) → Name k ∈ mentioned acl) ∧
  ¬ (∀ (user : value principal) (acl : list entry) (m : gmap string bool),
       list_permissions elements user (VList acl) = Ok m →
       ∀ k b, m !! k = Some b →
              has_permission user (Name k) (VList acl) = Ok b).
Proof.
  assert (Hkey : list_permissions elements anonymous (VList [ALOW_ALL])
                 = Ok {["permissions:*" := true]})
    by (vm_compute; reflexivity).
  assert (Hclash : list_permissions elements anonymous (VList clash_acl)
                   = Ok {["permissions:*" := true]})
    by (vm_compute; reflexivity).
  assert (Hdenied :
    has_permission anonymous (Name "permissions:*") (VList clash_acl)
    = Ok false) by (vm_compute; reflexivity).
  split; [reflexivity|]. split; [exact Hkey|].
  split; [vm_compute; reflexivity|]. split; [exact Hclash|].
  split; [exact Hdenied|]. split.
  - intros Hclaim.
    specialize (Hclaim _ _ _ Hkey "permissions:*").
    rewrite lookup_singleton_eq in Hclaim.
    specialize (Hclaim (mk_is_Some _ _ eq_refl)).
    apply list_elem_of_singleton in Hclaim. discriminate.
  - intros Hclaim.
    specialize (Hclaim _ _ _ Hclash "permissions:*" true
                  (lookup_singleton_eq _ _)).
    rewrite Hdenied in Hclaim. discriminate.
Qed.

(** In the other order the same listing maps the key to false. *)
Example clash_listing_other_order :
  list_permissions (λ X, reverse (elements X)) anonymous (VList clash_acl)
  = Ok {["permissions:*" := false]}.
Proof. vm_compute. reflexivity. Qed.

(** * Further properties of the code *)

(** ** The principal set *)

(** X1. Whenever [normalize_principals] returns, the set holds
    [Everyone], and it holds [Authenticated] exactly when the principals
    collection of the user is true. *)
Theorem normalize_principals_system_principals
    (user : value principal) (held : gset principal) :
  normalize_principals user = Ok held →
  Everyone ∈ held ∧
  (Authenticated ∈ held ↔ truthy (principals_collection user) = true).
Proof.
  rewrite normalize_principals_collection.
  destruct (truthy (principals_collection user)).
  - destruct (iter _) as [items|e]; cbn [mbind result_bind]; [|discriminate].
    intros [= <-]. split; [set_solver|]. split; [done|]. intros _. set_solver.
  - intros [= <-]. split; [set_solver|]. split; [|discriminate].
    intros Hin%elem_of_singleton. discriminate.
Qed.

(** X2. [normalize_principals] raises exactly when the principals
    collection is true and cannot be iterated: a number other than zero,
    a callable (the attribute is called once only), or an object.  What
    it raises is [TypeError]. *)
Theorem normalize_principals_raises_iff (user : value principal) (e : exn) :
  normalize_principals user = Raise e ↔
  e = TypeError ∧
  match principals_collection user with
  | VInt n => n ≠ 0%Z
  | VFun _ | VObj _ => True
  | VNone | VStr _ | VList _ => False
  end.
Proof.
  rewrite normalize_principals_collection.
  destruct (principals_collection user) as [|n|s|items|ret|attrs];
    cbn [truthy iter mbind result_bind negb].
  - split; [discriminate|tauto].
  - destruct (Z.eqb_spec n 0) as [->|Hn]; cbn [negb].
    + split; [discriminate|]. intros [_ Hne]. done.
    + split; [intros [= <-]; done|]. intros [-> _]. reflexivity.
  - destruct (negb _); split; (discriminate || tauto).
  - destruct items; split; (discriminate || tauto).
  - split; [intros [= <-]; done|]. intros [-> _]. reflexivity.
  - split; [intros [= <-]; done|]. intros [-> _]. reflexivity.
Qed.

Lemma chars_length (s x : string) : x ∈ chars s → String.length x = 1.
Proof.
  induction s as [|c s IH]; cbn [chars].
  - intros Hx. by apply not_elem_of_nil in Hx.
  - intros [->|Hx]%elem_of_cons; [reflexivity|by apply IH].
Qed.

(** X3. A [principals] collection that is a bare, non-empty [str] is
    united character by character: besides [Everyone] and
    [Authenticated] the set holds only one-character principals. *)
Theorem normalize_principals_bare_str (user : value principal) (s : string) :
  principals_collection user = VStr s →
  s ≠ "" →
  ∃ held : gset principal,
    normalize_principals user = Ok held ∧
    held = {[Everyone; Authenticated]} ∪ list_to_set (chars s) ∧
    ∀ x, x ∈ held →
         x = Everyone ∨ x = Authenticated ∨ String.length x = 1.
Proof.
  intros Hc Hs. rewrite normalize_principals_collection, Hc.
  cbn [truthy]. destruct (String.eqb_spec s "") as [->|_]; [done|].
  cbn [negb iter mbind result_bind]. rewrite <- list_fmap_compose.
  change (hashed ∘ inr) with (@id string). rewrite list_fmap_id.
  eexists; split; [reflexivity|]. split; [reflexivity|].
  intros x. rewrite !elem_of_union, !elem_of_singleton, elem_of_list_to_set.
  intros [[->| ->]|Hx]; eauto using chars_length.
Qed.

(** ** What [has_permission] answers and raises *)

(** X4. With the principals of the user normalized, the outcome of
    [has_permission] is fixed by the normalized ACL: a sequence of
    entries is decided by its first match, the empty [str] denies, any
    other [str] raises [ValueError] at the unpacking of its first
    character, and a value that is not iterable raises [TypeError]. *)
Theorem has_permission_outcomes
    (user : value principal) (p : permission) (resource acl : value entry)
    (held : gset principal) :
  normalize_principals user = Ok held →
  normalize_acl resource = Ok acl →
  has_permission user p resource =
  match acl with
  | VList entries => Ok (decision held p entries)
  | VStr "" => Ok false
  | VStr _ => Raise ValueError
  | VNone | VInt _ | VFun _ | VObj _ => Raise TypeError
  end.
Proof.
  intros Hu Hr. unfold has_permission. rewrite Hu, Hr.
  cbn [mbind result_bind].
  destruct acl as [|n|s|entries|ret|attrs]; try reflexivity.
  - destruct s; reflexivity.
  - apply has_permission_loop_find.
Qed.

(** X5. The principals are normalized before the ACL is looked at: for a
    user on whom [normalize_principals] raises, [has_permission] raises
    [TypeError] for every permission and every resource, a resource
    without any ACL included. *)
Theorem has_permission_user_first (user : value principal) (e : exn) :
  normalize_principals user = Raise e →
  ∀ (p : permission) (resource : value entry),
    has_permission user p resource = Raise TypeError.
Proof.
  intros Hu p resource. unfold has_permission. rewrite Hu.
  cbn [mbind result_bind]. f_equal.
  by apply (normalize_principals_raises user).
Qed.

(** ** How [has_permission] composes over the ACL *)

Lemma decision_app held p (l1 l2 : list entry) :
  decision held p (l1 ++ l2) =
  if decide (Exists (matches held p) l1) then decision held p l1
  else decision held p l2.
Proof.
  unfold decision. induction l1 as [|e l1 IH].
  - rewrite decide_False; [reflexivity|]. by intros ?%Exists_nil.
  - rewrite <- app_comm_cons. cbn [list_find].
    destruct (decide (matches held p e)) as [He|He].
    + rewrite decide_True by (by left). reflexivity.
    + destruct (decide (Exists (matches held p) l1)) as [Hl|Hl].
      * rewrite decide_True by (by right).
        destruct (list_find _ (l1 ++ l2)) as [[i [[a pr] perms]]|],
          (list_find _ l1) as [[j [[a' pr'] perms']]|]; simpl; exact IH.
      * rewrite decide_False by (by intros [?|?]%Exists_cons).
        destruct (list_find _ (l1 ++ l2)) as [[i [[a pr] perms]]|],
          (list_find _ l2) as [[j [[a' pr'] perms']]|]; simpl; exact IH.
Qed.

(** X6. Over a concatenated ACL the first part decides whenever one of
    its entries matches; otherwise the second part decides. *)
Theorem has_permission_app
    (user : value principal) (p : permission) (held : gset principal)
    (l1 l2 : list entry) :
  normalize_principals user = Ok held →
  has_permission user p (VList (l1 ++ l2)) =
  if decide (Exists (matches held p) l1)
  then has_permission user p (VList l1)
  else has_permission user p (VList l2).
Proof.
  intros Hu.
  rewrite !(has_permission_decision _ _ _ _ _ Hu (normalize_acl_list _)).
  rewrite decision_app. by destruct (decide _).
Qed.

(** X7. An entry for [Everyone] with [All], such as [DENY_ALL] and
    [ALOW_ALL], ends the evaluation: what follows it in the ACL is never
    looked at.  An ACL headed by [DENY_ALL] denies everything, one headed
    by [ALOW_ALL] allows everything. *)
Theorem catch_all_shadows_rest
    (user : value principal) (p : permission) (held : gset principal)
    (a : string) (l rest : list entry) :
  normalize_principals user = Ok held →
  has_permission user p (VList (l ++ (a, Everyone, All) :: rest)) =
    has_permission user p (VList (l ++ [(a, Everyone, All)])) ∧
  has_permission user p (VList (DENY_ALL :: rest)) = Ok false ∧
  has_permission user p (VList (ALOW_ALL :: rest)) = Ok true.
Proof.
  intros Hu. pose proof (normalize_principals_Everyone _ _ Hu) as He.
  assert (Hm : ∀ a', matches held p (a', Everyone, All)) by (by split).
  assert (Hhead : ∀ a' rest',
    decision held p ((a', Everyone, All) :: rest') = String.eqb a' Allow).
  { intros a' rest'. unfold decision. cbn [list_find].
    rewrite decide_True by apply Hm. reflexivity. }
  rewrite !(has_permission_decision _ _ _ _ _ Hu (normalize_acl_list _)).
  split; [|split].
  - rewrite !decision_app. destruct (decide _); [reflexivity|].
    by rewrite !Hhead.
  - f_equal. apply Hhead.
  - f_equal. apply Hhead.
Qed.

Lemma decision_filter held p (acl : list entry) :
  decision held p (filter (matches held p) acl) = decision held p acl.
Proof.
  unfold decision. induction acl as [|e acl IH]; [reflexivity|].
  rewrite filter_cons. cbn [list_find].
  destruct (decide (matches held p e)) as [He|He].
  - cbn [list_find]. rewrite decide_True by done. reflexivity.
  - destruct (list_find _ (filter _ acl)) as [[i [[a pr] perms]]|],
      (list_find _ acl) as [[j [[a' pr'] perms']]|]; simpl; exact IH.
Qed.

(** X8. Entries that do not match, because the user does not hold their
    principal or because their permissions do not contain the requested
    one, can be removed from the ACL without changing the answer. *)
Theorem has_permission_filter
    (user : value principal) (p : permission) (held : gset principal)
    (acl : list entry) :
  normalize_principals user = Ok held →
  has_permission user p (VList (filter (matches held p) acl)) =
  has_permission user p (VList acl).
Proof.
  intros Hu.
  rewrite !(has_permission_decision _ _ _ _ _ Hu (normalize_acl_list _)).
  by rewrite decision_filter.
Qed.

Lemma decision_monotone (h1 h2 : gset principal) p (acl : list entry) :
  h1 ⊆ h2 →
  Forall (λ e : entry, e.1.1 = Allow) acl →
  decision h1 p acl = true → decision h2 p acl = true.
Proof.
  intros Hsub Hallow. unfold decision.
  induction Hallow as [|[[a pr] perms] acl Ha _ IH]; [done|].
  simpl in Ha. subst a. cbn [list_find].
  destruct (decide (matches h2 p (Allow, pr, perms))) as [H2|H2];
    [reflexivity|].
  rewrite decide_False.
  - destruct (list_find (matches h1 p) acl) as [[i [[a1 pr1] perms1]]|],
      (list_find (matches h2 p) acl) as [[j [[a2 pr2] perms2]]|];
      simpl; exact IH.
  - intros [Hc Hp]. apply H2. split; [exact Hc|]. apply Hsub, Hp.
Qed.

(** X9. On an ACL all of whose entries have action [Allow], holding more
    principals never loses a permission: what is granted to a user is
    granted to every user whose principal set includes theirs. *)
Theorem allow_only_acl_monotone
    (user1 user2 : value principal) (p : permission)
    (resource : value entry) (h1 h2 : gset principal) (acl : list entry) :
  normalize_principals user1 = Ok h1 →
  normalize_principals user2 = Ok h2 →
  normalize_acl resource = Ok (VList acl) →
  h1 ⊆ h2 →
  Forall (λ e : entry, e.1.1 = Allow) acl →
  has_permission user1 p resource = Ok true →
  has_permission user2 p resource = Ok true.
Proof.
  intros Hu1 Hu2 Hr Hsub Hallow.
  rewrite (has_permission_decision _ _ _ _ _ Hu1 Hr),
    (has_permission_decision _ _ _ _ _ Hu2 Hr).
  intros [= H1]. f_equal. by eapply decision_monotone.
Qed.

Lemma decision_no_All held (acl : list entry) :
  AllObj ∉ mentioned acl → decision held AllObj acl = false.
Proof.
  unfold decision. induction acl as [|[[a pr] perms] acl IH]; [done|].
  intros Hall. cbn [list_find]. rewrite decide_False.
  - destruct (list_find _ acl) as [[i [[a' pr'] perms']]|] eqn:Hfind;
      [|reflexivity].
    simpl. apply IH. intros Hin. apply Hall. unfold mentioned.
    rewrite fmap_cons. simpl. apply elem_of_app. by right.
  - intros [Hc _]. apply Hall. unfold mentioned. rewrite fmap_cons. simpl.
    apply elem_of_app. left. destruct perms; simpl in *; [done|done|left].
Qed.

(** X10. A name that no entry of the ACL mentions is decided like the
    sentinel [All] itself, by the entries whose permissions field is
    [All] alone; without such an entry it is denied. *)
Theorem unmentioned_name_decided_by_All
    (user : value principal) (k : string) (resource : value entry)
    (held : gset principal) (acl : list entry) :
  normalize_principals user = Ok held →
  normalize_acl resource = Ok (VList acl) →
  Name k ∉ mentioned acl →
  has_permission user (Name k) resource = has_permission user AllObj resource ∧
  (AllObj ∉ mentioned acl → has_permission user (Name k) resource = Ok false).
Proof.
  intros Hu Hr Hk.
  rewrite !(has_permission_decision _ _ _ _ _ Hu Hr).
  rewrite <- (decision_unmentioned held acl k Hk). split; [reflexivity|].
  intros Hall. f_equal. by apply decision_no_All.
Qed.

(** ** The listing at its edges *)

Lemma set_iter_nil (set_iter : gset permission → list permission)
    (l : list permission) :
  (∀ X, set_iter X ≡ₚ elements X) →
  l = [] → set_iter (list_to_set l) = [].
Proof.
  intros Hiter ->. apply Permutation_nil_r. rewrite (Hiter _).
  cbn [list_to_set]. by rewrite elements_empty.
Qed.

Lemma set_iter_cons (set_iter : gset permission → list permission)
    (l : list permission) :
  (∀ X, set_iter X ≡ₚ elements X) →
  l ≠ [] → ∃ p rest, set_iter (list_to_set l) = p :: rest.
Proof.
  intros Hiter Hl. destruct (set_iter (list_to_set l)) as [|p rest] eqn:Hs;
    [|eauto].
  destruct l as [|q l]; [done|].
  assert (Hq : q ∈ set_iter (list_to_set (q :: l))).
  { rewrite (Hiter _), elem_of_elements, elem_of_list_to_set. left. }
  rewrite Hs in Hq. by apply not_elem_of_nil in Hq.
Qed.

(** X11. When the entries of the ACL mention no permission at all (the
    ACL is empty, or its permissions fields are empty collections),
    [list_permissions] returns the empty mapping, and it does so for
    every user: [has_permission] is not called, so even a user on whom
    [normalize_principals] raises gets the empty mapping. *)
Theorem list_permissions_nothing_mentioned
    (set_iter : gset permission → list permission)
    (user : value principal) (resource : value entry) (acl : list entry) :
  (∀ X, set_iter X ≡ₚ elements X) →
  normalize_acl resource = Ok (VList acl) →
  mentioned acl = [] →
  list_permissions set_iter user resource = Ok ∅.
Proof.
  intros Hiter Hr Hnone.
  rewrite (list_permissions_comprehension _ _ _ _ Hr).
  rewrite (set_iter_nil _ _ Hiter Hnone). reflexivity.
Qed.

Lemma has_permission_user_raises user e :
  normalize_principals user = Raise e →
  ∀ p resource, has_permission user p resource = Raise TypeError.
Proof.
  intros Hu p resource. unfold has_permission. rewrite Hu.
  cbn [mbind result_bind]. f_equal.
  by apply (normalize_principals_raises user).
Qed.

Lemma list_permissions_raises_for_user set_iter user resource e
    (acl : list entry) :
  (∀ X, set_iter X ≡ₚ elements X) →
  normalize_principals user = Raise e →
  normalize_acl resource = Ok (VList acl) →
  mentioned acl ≠ [] →
  list_permissions set_iter user resource = Raise TypeError.
Proof.
  intros Hiter Hu Hr Hsome.
  rewrite (list_permissions_comprehension _ _ _ _ Hr).
  destruct (set_iter_cons _ _ Hiter Hsome) as (p & rest & ->).
  cbn [dict_comprehension]. unfold has_permission. rewrite Hu.
  cbn [mbind result_bind]. f_equal.
  by apply (normalize_principals_raises user).
Qed.

(** X12. As soon as the ACL mentions a permission, [list_permissions]
    depends on the user: for a user on whom [normalize_principals] raises
    it raises [TypeError], whatever the iteration order. *)
Theorem list_permissions_user_raises
    (set_iter : gset permission → list permission)
    (user : value principal) (resource : value entry) (e : exn)
    (acl : list entry) :
  (∀ X, set_iter X ≡ₚ elements X) →
  normalize_principals user = Raise e →
  normalize_acl resource = Ok (VList acl) →
  mentioned acl ≠ [] →
  list_permissions set_iter user resource = Raise TypeError.
Proof.
  intros Hiter Hu Hr Hsome.
  rewrite (list_permissions_comprehension _ _ _ _ Hr).
  destruct (set_iter_cons _ _ Hiter Hsome) as (p & rest & ->).
  cbn [dict_comprehension].
  rewrite (has_permission_user_raises _ _ Hu). reflexivity.
Qed.

(** X13. Unless the ACL mentions both [All] and the literal name
    ["permissions:*"], the result of [list_permissions] does not depend
    on the order in which the set of available permissions is iterated:
    any two enumerations of the set give the same mapping, or the same
    exception. *)
Theorem list_permissions_order_independent
    (set_iter1 set_iter2 : gset permission → list permission)
    (user : value principal) (resource : value entry) (acl : list entry) :
  (∀ X, set_iter1 X ≡ₚ elements X) →
  (∀ X, set_iter2 X ≡ₚ elements X) →
  normalize_acl resource = Ok (VList acl) →
  ¬ (AllObj ∈ mentioned acl ∧ Name "permissions:*" ∈ mentioned acl) →
  list_permissions set_iter1 user resource =
  list_permissions set_iter2 user resource.
Proof.
  intros Hiter1 Hiter2 Hr Hclash.
  destruct (normalize_principals user) as [held|e] eqn:Hu.
  - destruct (list_permissions_lookup _ _ _ _ _ Hiter1 Hu Hr)
      as (m1 & -> & Hm1).
    destruct (list_permissions_lookup _ _ _ _ _ Hiter2 Hu Hr)
      as (m2 & -> & Hm2).
    f_equal. apply map_eq. intros k.
    destruct (Hm1 k) as [[Hk1 Hno1]|(p1 & Hp1 & Hkey1 & Hk1)],
      (Hm2 k) as [[Hk2 Hno2]|(p2 & Hp2 & Hkey2 & Hk2)].
    + congruence.
    + destruct (Hno1 _ Hp2 Hkey2).
    + destruct (Hno2 _ Hp1 Hkey1).
    + rewrite Hk1, Hk2. do 2 f_equal.
      destruct (str_inv _ _ Hkey1) as [->|[-> Hk]],
        (str_inv _ _ Hkey2) as [->|[-> Hk']]; try reflexivity.
      * subst k. tauto.
      * subst k. tauto.
  - destruct (mentioned acl) as [|q l] eqn:Hm.
    + rewrite !(list_permissions_comprehension _ _ _ _ Hr), Hm.
      rewrite (set_iter_nil _ [] Hiter1 eq_refl),
        (set_iter_nil _ [] Hiter2 eq_refl). reflexivity.
    + rewrite (list_permissions_raises_for_user _ _ _ _ _ Hiter1 Hu Hr),
        (list_permissions_raises_for_user _ _ _ _ _ Hiter2 Hu Hr);
        [reflexivity|rewrite Hm; done|rewrite Hm; done].
Qed.

(** ** What a grant stands for *)

Lemma has_permission_true_inv user p resource :
  has_permission user p resource = Ok true →
  ∃ (held : gset principal) (acl : list entry),
    normalize_principals user = Ok held ∧
    normalize_acl resource = Ok (VList acl) ∧
    decision held p acl = true.
Proof.
  unfold has_permission.
  destruct (normalize_principals user) as [held|e];
    cbn [mbind result_bind]; [|discriminate].
  destruct (normalize_acl resource) as [acl|e];
    cbn [mbind result_bind]; [|discriminate].
  destruct acl as [|n|s|entries|ret|attrs]; try discriminate.
  - destruct s; discriminate.
  - cbn [iter mbind result_bind]. rewrite has_permission_loop_find.
    intros [= Hd]. eauto.
Qed.

(** X14. The dependency returns a grant only on an explicit allowance:
    when it returns, the ACL of the resource has an entry with action
    [Allow] whose principal the user holds and whose permissions contain
    the requested name, no matching entry comes before it, and the grant
    is [grant_class] of this very user and resource.  An exception of
    [has_permission] is passed on as it is, not turned into the
    configured one. *)
Theorem grant_requires_allow_entry {G : Type}
    (grant_class : value principal → value entry → G) (exc : exn)
    (permission : string) (resource : value entry) (user : value principal) :
  (∀ g,
     permission_dependency_factory permission grant_class exc resource user
       = Ok g →
     g = grant_class user resource ∧
     ∃ (held : gset principal) (acl : list entry) (i : nat) (e : entry),
       normalize_principals user = Ok held ∧
       normalize_acl resource = Ok (VList acl) ∧
       acl !! i = Some e ∧ e.1.1 = Allow ∧
       matches held (Name permission) e ∧
       ∀ j e', acl !! j = Some e' → j < i →
               ¬ matches held (Name permission) e') ∧
  (∀ e, has_permission user (Name permission) resource = Raise e →
        permission_dependency_factory permission grant_class exc resource user
          = Raise e).
Proof.
  unfold permission_dependency_factory. split.
  - intros g.
    destruct (has_permission user (Name permission) resource) as [[]|e] eqn:Hp;
      cbn [mbind result_bind]; try discriminate.
    intros [= <-]. split; [reflexivity|].
    apply has_permission_true_inv in Hp as (held & acl & Hu & Hr & Hd).
    unfold decision in Hd.
    destruct (list_find _ acl) as [[i [[a pr] perms]]|] eqn:Hfind;
      [|discriminate].
    apply list_find_Some in Hfind as (Hi & Hm & Hfirst).
    apply String.eqb_eq in Hd. subst a.
    exists held, acl, i, (Allow, pr, perms). eauto 10.
  - intros e ->. reflexivity.
Qed.

(** X15. [list_permissions] looks at the ACL before it looks at the
    user.  Whatever the user, a normalized ACL that is the empty [str]
    gives the empty mapping, any other [str] raises [ValueError], and a
    value that is not iterable raises [TypeError].  On a sequence of
    entries it raises only for a user on whom [normalize_principals]
    raises, and then [TypeError]. *)
Theorem list_permissions_outcomes
    (set_iter : gset permission → list permission)
    (user : value principal) (resource acl : value entry) :
  (∀ X, set_iter X ≡ₚ elements X) →
  normalize_acl resource = Ok acl →
  match acl with
  | VList _ =>
      ∀ e, list_permissions set_iter user resource = Raise e →
           e = TypeError ∧ normalize_principals user = Raise TypeError
  | VStr "" => list_permissions set_iter user resource = Ok ∅
  | VStr _ => list_permissions set_iter user resource = Raise ValueError
  | VNone | VInt _ | VFun _ | VObj _ =>
      list_permissions set_iter user resource = Raise TypeError
  end.
Proof.
  intros Hiter Hr.
  destruct acl as [|n|s|entries|ret|attrs];
    try (unfold list_permissions; rewrite Hr; reflexivity).
  - unfold list_permissions. rewrite Hr. cbn [mbind result_bind].
    destruct s as [|c s]; [|reflexivity].
    cbn [iter chars fmap list_fmap mbind result_bind mapM mret result_ret
         mjoin list_join].
    rewrite (set_iter_nil _ [] Hiter eq_refl). reflexivity.
  - intros e He.
    destruct (normalize_principals user) as [held|e'] eqn:Hu.
    + destruct (list_permissions_returns set_iter _ _ _ _ Hu Hr) as [m Hm].
      congruence.
    + assert (e' = TypeError) as ->
        by (by apply (normalize_principals_raises user)).
      split; [|reflexivity].
      destruct (mentioned entries) as [|q l] eqn:Hm.
      * rewrite (list_permissions_comprehension _ _ _ _ Hr), Hm in He.
        rewrite (set_iter_nil _ [] Hiter eq_refl) in He. discriminate.
      * rewrite (list_permissions_raises_for_user _ _ _ _ _ Hiter Hu Hr) in He
          by (rewrite Hm; done).
        congruence.
Qed.

(** X16. An [__acl__] method that returns [None] is not treated like an
    [__acl__] attribute that is [None].  The attribute falls through to
    the empty ACL and a denial; the result of the call is returned as it
    is, and [has_permission] raises [TypeError] when it iterates it. *)
Theorem acl_method_returning_None
    (user : value principal) (p : permission) (resource : value entry)
    (held : gset principal) :
  normalize_principals user = Ok held →
  (accessor resource = Some (VFun VNone) →
     normalize_acl resource = Ok VNone ∧
     has_permission user p resource = Raise TypeError) ∧
  (accessor resource = Some VNone → hasattr_iter resource = false →
     normalize_acl resource = Ok (VList []) ∧
     has_permission user p resource = Ok false).
Proof.
  intros Hu. unfold has_permission, normalize_acl. rewrite Hu.
  rewrite getattr_accessor. cbn [mbind result_bind]. split.
  - intros ->. split; reflexivity.
  - intros -> Hit. unfold is_like_list. rewrite Hit.
    cbn [callable is_None negb].
    destruct (isinstance_str resource); split; reflexivity.
Qed.

(** ** The further properties at sample inputs *)

Lemma normalize_principals_system_principals_witness :
  normalize_principals admin_user = Ok admin_held ∧
  Everyone ∈ admin_held ∧
  (Authenticated ∈ admin_held ↔
   truthy (principals_collection admin_user) = true).
Proof.
  assert (Hu : normalize_principals admin_user = Ok admin_held)
    by (vm_compute; reflexivity).
  split; [exact Hu|].
  exact (normalize_principals_system_principals admin_user admin_held Hu).
Defined.

Lemma normalize_principals_raises_iff_witness :
  principals_collection numbered_user = VInt 5 ∧
  normalize_principals numbered_user = Raise TypeError.
Proof.
  split; [reflexivity|].
  apply (normalize_principals_raises_iff numbered_user TypeError).
  split; [reflexivity|]. vm_compute. discriminate.
Defined.

Lemma normalize_principals_bare_str_witness :
  principals_collection bare_str_user = VStr "admin" ∧
  "admin" ≠ "" ∧
  ∃ held : gset principal,
    normalize_principals bare_str_user = Ok held ∧
    held = {[Everyone; Authenticated]} ∪ list_to_set (chars "admin") ∧
    ∀ x, x ∈ held →
         x = Everyone ∨ x = Authenticated ∨ String.length x = 1.
Proof.
  split; [reflexivity|]. split; [discriminate|].
  apply (normalize_principals_bare_str bare_str_user "admin");
    [reflexivity|discriminate].
Defined.

Lemma has_permission_outcomes_witness :
  normalize_principals admin_user = Ok admin_held ∧
  normalize_acl str_acl_item = Ok (VStr "abc") ∧
  has_permission admin_user (Name "view") str_acl_item = Raise ValueError.
Proof.
  assert (Hu : normalize_principals admin_user = Ok admin_held)
    by (vm_compute; reflexivity).
  split; [exact Hu|]. split; [reflexivity|].
  exact (has_permission_outcomes admin_user (Name "view") str_acl_item
           (VStr "abc") admin_held Hu eq_refl).
Defined.

Lemma has_permission_user_first_witness :
  normalize_principals numbered_user = Raise TypeError ∧
  ∀ (p : permission) (resource : value entry),
    has_permission numbered_user p resource = Raise TypeError.
Proof.
  split; [reflexivity|].
  apply (has_permission_user_first numbered_user TypeError). reflexivity.
Defined.

Lemma has_permission_app_witness :
  normalize_principals admin_user = Ok admin_held ∧
  has_permission admin_user (Name "view")
    (VList ([(Deny, Everyone, PStr "view")]
            ++ [(Allow, "role:admin", PStr "view")])) =
  if decide (Exists (matches admin_held (Name "view"))
               [(Deny, Everyone, PStr "view")])
  then has_permission admin_user (Name "view")
         (VList [(Deny, Everyone, PStr "view")])
  else has_permission admin_user (Name "view")
         (VList [(Allow, "role:admin", PStr "view")]).
Proof.
  assert (Hu : normalize_principals admin_user = Ok admin_held)
    by (vm_compute; reflexivity).
  split; [exact Hu|].
  exact (has_permission_app admin_user (Name "view") admin_held
           [(Deny, Everyone, PStr "view")]
           [(Allow, "role:admin", PStr "view")] Hu).
Defined.

Lemma catch_all_shadows_rest_witness :
  normalize_principals admin_user = Ok admin_held ∧
  has_permission admin_user (Name "edit")
    (VList (guarded_acl ++ (Deny, Everyone, All) :: article_acl)) =
    has_permission admin_user (Name "edit")
      (VList (guarded_acl ++ [(Deny, Everyone, All)])) ∧
  has_permission admin_user (Name "edit") (VList (DENY_ALL :: article_acl))
    = Ok false ∧
  has_permission admin_user (Name "edit") (VList (ALOW_ALL :: article_acl))
    = Ok true.
Proof.
  assert (Hu : normalize_principals admin_user = Ok admin_held)
    by (vm_compute; reflexivity).
  split; [exact Hu|].
  exact (catch_all_shadows_rest admin_user (Name "edit") admin_held Deny
           guarded_acl article_acl Hu).
Defined.

Lemma has_permission_filter_witness :
  normalize_principals admin_user = Ok admin_held ∧
  has_permission admin_user (Name "edit")
    (VList (filter (matches admin_held (Name "edit")) article_acl)) =
  has_permission admin_user (Name "edit") (VList article_acl).
Proof.
  assert (Hu : normalize_principals admin_user = Ok admin_held)
    by (vm_compute; reflexivity).
  split; [exact Hu|].
  exact (has_permission_filter admin_user (Name "edit") admin_held
           article_acl Hu).
Defined.

Lemma allow_only_acl_monotone_witness :
  normalize_principals anonymous = Ok {[Everyone]} ∧
  normalize_principals admin_user = Ok admin_held ∧
  ({[Everyone]} : gset principal) ⊆ admin_held ∧
  Forall (λ e : entry, e.1.1 = Allow) [(Allow, Everyone, PStr "view")] ∧
  has_permission anonymous (Name "view")
    (VList [(Allow, Everyone, PStr "view")]) = Ok true ∧
  has_permission admin_user (Name "view")
    (VList [(Allow, Everyone, PStr "view")]) = Ok true.
Proof.
  assert (Hu1 : normalize_principals anonymous = Ok {[Everyone]})
    by reflexivity.
  assert (Hu2 : normalize_principals admin_user = Ok admin_held)
    by (vm_compute; reflexivity).
  assert (Hsub : ({[Everyone]} : gset principal) ⊆ admin_held)
    by (unfold admin_held; set_solver).
  assert (Hallow : Forall (λ e : entry, e.1.1 = Allow)
                     [(Allow, Everyone, PStr "view")])
    by (repeat constructor).
  assert (H1 : has_permission anonymous (Name "view")
                 (VList [(Allow, Everyone, PStr "view")]) = Ok true)
    by (vm_compute; reflexivity).
  split; [exact Hu1|]. split; [exact Hu2|]. split; [exact Hsub|].
  split; [exact Hallow|]. split; [exact H1|].
  exact (allow_only_acl_monotone anonymous admin_user (Name "view")
           (VList [(Allow, Everyone, PStr "view")]) {[Everyone]} admin_held
           [(Allow, Everyone, PStr "view")] Hu1 Hu2 eq_refl Hsub Hallow H1).
Defined.

Lemma unmentioned_name_decided_by_All_witness :
  normalize_principals admin_user = Ok admin_held ∧
  normalize_acl article = Ok (VList article_acl) ∧
  (Name "delete" ∉ mentioned article_acl) ∧
  has_permission admin_user (Name "delete") article =
    has_permission admin_user AllObj article ∧
  (AllObj ∉ mentioned article_acl →
   has_permission admin_user (Name "delete") article = Ok false).
Proof.
  assert (Hu : normalize_principals admin_user = Ok admin_held)
    by (vm_compute; reflexivity).
  assert (Hk : Name "delete" ∉ mentioned article_acl)
    by (refine (bool_decide_unpack _ _); vm_compute; exact I).
  split; [exact Hu|]. split; [reflexivity|]. split; [exact Hk|].
  exact (unmentioned_name_decided_by_All admin_user "delete" article
           admin_held article_acl Hu eq_refl Hk).
Defined.

Lemma list_permissions_nothing_mentioned_witness :
  (∀ X : gset permission, elements X ≡ₚ elements X) ∧
  normalize_acl (VInt 7) = Ok (VList []) ∧
  mentioned [] = [] ∧
  normalize_principals numbered_user = Raise TypeError ∧
  list_permissions elements numbered_user (VInt 7) = Ok ∅.
Proof.
  split; [reflexivity|]. split; [reflexivity|]. split; [reflexivity|].
  split; [reflexivity|].
  apply (list_permissions_nothing_mentioned elements numbered_user (VInt 7) []);
    reflexivity.
Defined.

Lemma list_permissions_user_raises_witness :
  (∀ X : gset permission, elements X ≡ₚ elements X) ∧
  normalize_principals numbered_user = Raise TypeError ∧
  normalize_acl article = Ok (VList article_acl) ∧
  mentioned article_acl ≠ [] ∧
  list_permissions elements numbered_user article = Raise TypeError.
Proof.
  split; [reflexivity|]. split; [reflexivity|]. split; [reflexivity|].
  split; [discriminate|].
  apply (list_permissions_user_raises elements numbered_user article TypeError
           article_acl); [reflexivity|reflexivity|reflexivity|discriminate].
Defined.

Lemma list_permissions_order_independent_witness :
  (∀ X : gset permission, elements X ≡ₚ elements X) ∧
  (∀ X : gset permission, reverse (elements X) ≡ₚ elements X) ∧
  normalize_acl article = Ok (VList article_acl) ∧
  ¬ (AllObj ∈ mentioned article_acl ∧
     Name "permissions:*" ∈ mentioned article_acl) ∧
  list_permissions elements admin_user article =
  list_permissions (λ X, reverse (elements X)) admin_user article.
Proof.
  assert (Hrev : ∀ X : gset permission, reverse (elements X) ≡ₚ elements X)
    by (intros X; apply reverse_Permutation).
  assert (Hclash : ¬ (AllObj ∈ mentioned article_acl ∧
                      Name "permissions:*" ∈ mentioned article_acl))
    by (refine (bool_decide_unpack _ _); vm_compute; exact I).
  split; [reflexivity|]. split; [exact Hrev|]. split; [reflexivity|].
  split; [exact Hclash|].
  exact (list_permissions_order_independent elements
           (λ X, reverse (elements X)) admin_user article article_acl
           (λ X, reflexivity _) Hrev eq_refl Hclash).
Defined.

Lemma grant_requires_allow_entry_witness :
  permission_dependency_factory "view" Build_Grant permission_exception
    article editor_user
  = Ok (Build_Grant editor_user article) ∧
  ∃ (held : gset principal) (acl : list entry) (i : nat) (e : entry),
    normalize_principals editor_user = Ok held ∧
    normalize_acl article = Ok (VList acl) ∧
    acl !! i = Some e ∧ e.1.1 = Allow ∧
    matches held (Name "view") e ∧
    ∀ j e', acl !! j = Some e' → j < i → ¬ matches held (Name "view") e'.
Proof.
  assert (Hg : permission_dependency_factory "view" Build_Grant
                 permission_exception article editor_user
               = Ok (Build_Grant editor_user article))
    by (vm_compute; reflexivity).
  split; [exact Hg|].
  destruct (grant_requires_allow_entry Build_Grant permission_exception
              "view" article editor_user) as [Hsound _].
  exact (proj2 (Hsound _ Hg)).
Defined.

Lemma list_permissions_outcomes_witness :
  (∀ X : gset permission, elements X ≡ₚ elements X) ∧
  normalize_acl str_acl_item = Ok (VStr "abc") ∧
  list_permissions elements anonymous str_acl_item = Raise ValueError.
Proof.
  split; [reflexivity|]. split; [reflexivity|].
  exact (list_permissions_outcomes elements anonymous str_acl_item
           (VStr "abc") (λ X, reflexivity _) eq_refl).
Defined.

Lemma acl_method_returning_None_witness :
  normalize_principals anonymous = Ok {[Everyone]} ∧
  accessor (VObj {["__acl__" := VFun VNone]}) = Some (VFun VNone) ∧
  normalize_acl (VObj {["__acl__" := VFun VNone]}) = Ok VNone ∧
  has_permission anonymous (Name "view") (VObj {["__acl__" := VFun VNone]})
    = Raise TypeError ∧
  accessor (VObj {["__acl__" := VNone]}) = Some VNone ∧
  normalize_acl (VObj {["__acl__" := VNone]}) = Ok (VList []) ∧
  has_permission anonymous (Name "view") (VObj {["__acl__" := VNone]})
    = Ok false.
Proof.
  assert (Hu : normalize_principals anonymous = Ok {[Everyone]})
    by reflexivity.
  destruct (acl_method_returning_None anonymous (Name "view")
              (VObj {["__acl__" := VFun VNone]}) {[Everyone]} Hu)
    as [Hmethod _].
  destruct (acl_method_returning_None anonymous (Name "view")
              (VObj {["__acl__" := VNone]}) {[Everyone]} Hu)
    as [_ Hattr].
  split; [exact Hu|]. split; [reflexivity|].
  split; [exact (proj1 (Hmethod eq_refl))|].
  split; [exact (proj2 (Hmethod eq_refl))|].
  split; [reflexivity|].
  split; [exact (proj1 (Hattr eq_refl eq_refl))|].
  exact (proj2 (Hattr eq_refl eq_refl)).
Defined.
